(** * Rich-text command dispatch of [useRichTextSetup.js]

    A shallow embedding of
    [packages/outline-react/src/shared/useRichTextSetup.js]: the table of
    input-event bindings, the lifecycle helpers ([initParagraph],
    [initEditor], [clearEditor], the mount effect of [useRichTextSetup])
    and the ['command'] listener with its cases.

    The file imports most of what it calls from the [outline] package.
    Those collaborators are not part of this file's source; they are
    either taken as parameters (the text-editing methods of the selection
    object, the arrow-key predicate, [getTextContent]) or given a small
    definition that follows the written specification of the interface
    (node attributes, [editor.update], [editor.execCommand]). Each such
    definition says so in its comment. *)

From stdpp Require Import gmap strings list.
From Stdlib Require Import ZArith Ascii String.

Local Open Scope string_scope.
Local Open Scope Z_scope.

(** ** JavaScript values that travel as command payloads *)

(** A raw key event.  [preventDefault] mutates the event object; the set of
    events whose default was suppressed is kept in the world, keyed by
    [eventId]. *)
Record KeyboardEvent := mkKeyboardEvent {
  eventId : N;
  shiftKey : bool
}.

Inductive JSValue :=
| JSUndefined
| JSBoolean (b : bool)
| JSString (s : string)
| JSKeyboardEvent (e : KeyboardEvent).

(** JavaScript [ToBoolean] on the payload values above. *)
Definition truthy (v : JSValue) : bool :=
  match v with
  | JSUndefined => false
  | JSBoolean b => b
  | JSString s => negb (String.eqb s "")
  | JSKeyboardEvent _ => true
  end.

Inductive Exception :=
| InvariantViolation (message : string)
| TypeError (message : string).

(** [s[i]] on a JavaScript string: a character inside the string, and
    [undefined] (here [None]) for every index outside [0, length). *)
Definition charAt (s : string) (i : Z) : option ascii :=
  if (0 <=? i) && (i <? Z.of_nat (String.length s))
  then String.get (Z.to_nat i) s
  else None.

(** [character === '\t'] *)
Definition isTab (character : option ascii) : bool :=
  match character with
  | Some c => Ascii.eqb c "009"%char
  | None => false
  end.

(** ** Document model *)

Abbreviation NodeKey := N.

Definition rootKey : NodeKey := 0%N.

Inductive NodeType :=
| RootNode | ParagraphNode | HeadingNode | ListNode | ListItemNode
| QuoteNode | CodeNode | TextNode | LineBreakNode.

Record OutlineNode := mkNode {
  __type : NodeType;
  __parent : option NodeKey;
  __children : list NodeKey;
  __indent : Z;
  __format : JSValue;
  __text : string
}.

Definition withParent (n : OutlineNode) (parent : option NodeKey) : OutlineNode :=
  {| __type := __type n; __parent := parent; __children := __children n;
     __indent := __indent n; __format := __format n; __text := __text n |}.

Definition withChildren (n : OutlineNode) (children : list NodeKey)
  : OutlineNode :=
  {| __type := __type n; __parent := __parent n; __children := children;
     __indent := __indent n; __format := __format n; __text := __text n |}.

Definition withIndent (n : OutlineNode) (indent : Z) : OutlineNode :=
  {| __type := __type n; __parent := __parent n; __children := __children n;
     __indent := indent; __format := __format n; __text := __text n |}.

Definition withFormat (n : OutlineNode) (format : JSValue) : OutlineNode :=
  {| __type := __type n; __parent := __parent n; __children := __children n;
     __indent := __indent n; __format := format; __text := __text n |}.

Definition withText (n : OutlineNode) (content : string) : OutlineNode :=
  {| __type := __type n; __parent := __parent n; __children := __children n;
     __indent := __indent n; __format := __format n; __text := content |}.

Inductive PointType := text | element.

Record Point := mkPoint {
  key : NodeKey;
  offset : Z;
  type : PointType
}.

Record Selection := mkSelection {
  anchor : Point;
  focus : Point
}.

(** The document session's state: the node map, the (nullable) selection
    and the counter from which node keys are drawn. *)
Record EditorState := mkEditorState {
  _nodeMap : gmap N OutlineNode;
  _selection : option Selection;
  _keyCounter : NodeKey
}.

(** What the host observes of [editor.update]: a commit of a document
    state, and the firing of an [onUpdate] callback (callbacks are opaque
    host functions, named here by a number). *)
Inductive UpdateEvent :=
| Committed (state : EditorState)
| CallbackFired (callbackFn : N).

Inductive ListenerRef := OnTextMutation | CommandListener.

Record Listener := mkListener {
  listenerType : string;
  listenerRef : ListenerRef;
  priority : option Z
}.

(** Everything a handler of this file can read or write: the document,
    the DOM facts [shouldSelectParagraph] looks at, the key events whose
    default action was prevented, the debug log of [$log], the trace of
    [editor.update] and the editor's registrations. *)
Record World := mkWorld {
  editorState : EditorState;
  activeElement : option N;
  rootElement : option N;
  defaultPrevented : list N;
  debugLog : list string;
  updates : list UpdateEvent;
  registeredNodes : list NodeType;
  listeners : list Listener
}.

Definition withEditorState (w : World) (s : EditorState) : World :=
  {| editorState := s;
     activeElement := activeElement w;
     rootElement := rootElement w;
     defaultPrevented := defaultPrevented w;
     debugLog := debugLog w;
     updates := updates w;
     registeredNodes := registeredNodes w;
     listeners := listeners w |}.

Definition withDefaultPrevented (w : World) (prevented : list N) : World :=
  {| editorState := editorState w;
     activeElement := activeElement w;
     rootElement := rootElement w;
     defaultPrevented := prevented;
     debugLog := debugLog w;
     updates := updates w;
     registeredNodes := registeredNodes w;
     listeners := listeners w |}.

Definition withDebugLog (w : World) (entries : list string) : World :=
  {| editorState := editorState w;
     activeElement := activeElement w;
     rootElement := rootElement w;
     defaultPrevented := defaultPrevented w;
     debugLog := entries;
     updates := updates w;
     registeredNodes := registeredNodes w;
     listeners := listeners w |}.

Definition withUpdates (w : World) (trace : list UpdateEvent) : World :=
  {| editorState := editorState w;
     activeElement := activeElement w;
     rootElement := rootElement w;
     defaultPrevented := defaultPrevented w;
     debugLog := debugLog w;
     updates := trace;
     registeredNodes := registeredNodes w;
     listeners := listeners w |}.

Definition withRegistrations (w : World) (klasses : list NodeType)
  (ls : list Listener) : World :=
  {| editorState := editorState w;
     activeElement := activeElement w;
     rootElement := rootElement w;
     defaultPrevented := defaultPrevented w;
     debugLog := debugLog w;
     updates := updates w;
     registeredNodes := klasses;
     listeners := ls |}.

(** ** Outcomes and the handler monad *)

(** A call returns a value in a new world, throws, or (only for the
    re-entrant dispatcher, which is defined with fuel) runs out of fuel. *)
Inductive Outcome (A : Type) :=
| Done (a : A) (w : World)
| Thrown (e : Exception)
| OutOfFuel.
Arguments Done {A} a w.
Arguments Thrown {A} e.
Arguments OutOfFuel {A}.

Definition M (A : Type) : Type := World -> Outcome A.

Definition ret {A} (a : A) : M A := fun w => Done a w.

Definition bind {A B} (c : M A) (k : A -> M B) : M B :=
  fun w =>
    match c w with
    | Done a w' => k a w'
    | Thrown e => Thrown e
    | OutOfFuel => OutOfFuel
    end.

Definition throw {A} (e : Exception) : M A := fun _ => Thrown e.

Notation "'let*' x ':=' c 'in' k" := (bind c (fun x => k))
  (at level 10, x name, c at level 100, k at level 200).
Notation "c '>>' k" := (bind c (fun _ => k))
  (at level 100, k at level 200, right associativity).

(** A collaborator method either completes with a new document state or
    throws. *)
Inductive Completion :=
| Normal (s : EditorState)
| Abrupt (e : Exception).

Definition call (f : EditorState -> Completion) : M unit :=
  fun w =>
    match f (editorState w) with
    | Normal s => Done tt (withEditorState w s)
    | Abrupt e => Thrown e
    end.

Definition read {A} (f : EditorState -> A) : M A :=
  fun w => Done (f (editorState w)) w.

(** ** Node and point methods

    The node classes live in the [outline] package, outside this file's
    source.  The methods the listener calls on them are small accessors;
    they are defined here from the interface description. A node object is
    a handle on the latest version of the node with its key. *)

(** Modelled from the spec: a node object of the [outline] package is a
    reference into the document session's node map; reading through a
    reference to no node is an invariant violation. *)
Definition getLatest (node : NodeKey) : M OutlineNode :=
  fun w =>
    match _nodeMap (editorState w) !! node with
    | Some n => Done n w
    | None => Thrown (InvariantViolation "node not found")
    end.

(** Modelled from the spec: the anchor is a reference to a node of the
    document; [anchor.getNode()] yields that node, and a reference to no
    node is an invariant violation. *)
Definition getNode (point : Point) : M NodeKey :=
  let* _ := getLatest (key point) in ret (key point).

(** Modelled from the spec: [node.getParent()] of the [outline] package,
    the parent node or [null]; the description of [getParentOrThrow]
    ("fails fatally if the node has no parent") is built on it. *)
Definition getParent (node : NodeKey) (s : EditorState) : option NodeKey :=
  match _nodeMap s !! node with
  | Some n =>
      match __parent n with
      | Some p => match _nodeMap s !! p with Some _ => Some p | None => None end
      | None => None
      end
  | None => None
  end.

(** Modelled from the spec: [getParentOrThrow()] fails fatally if the node
    has no parent (invariant violation). *)
Definition getParentOrThrow (node : NodeKey) : M NodeKey :=
  let* parent := read (getParent node) in
  match parent with
  | Some p => ret p
  | None => throw (InvariantViolation "Expected node to have a parent.")
  end.

(** Modelled from the spec: [$isElementNode(node)] of the [outline]
    package.  The block-level nodes are the structural units (paragraph,
    heading, list, list item, quote, code block) and the root container;
    text and line-break nodes are leaves. *)
Definition isElementType (t : NodeType) : bool :=
  match t with
  | TextNode | LineBreakNode => false
  | _ => true
  end.

Definition isElementNode (node : NodeKey) : M bool :=
  let* n := getLatest node in ret (isElementType (__type n)).

(** Modelled from the spec: the capability flag "can insert literal tab"
    is true only for code-like blocks. *)
Definition canInsertTabType (t : NodeType) : bool :=
  match t with
  | CodeNode => true
  | _ => false
  end.

Definition canInsertTab (node : NodeKey) : M bool :=
  let* n := getLatest node in ret (canInsertTabType (__type n)).

(** Modelled from the spec: [getIndent()] reads the block's integer
    indent level. *)
Definition getIndent (node : NodeKey) : M Z :=
  let* n := getLatest node in ret (__indent n).

Definition writeNode (node : NodeKey) (n : OutlineNode) (s : EditorState)
  : EditorState :=
  {| _nodeMap := <[node := n]> (_nodeMap s);
     _selection := _selection s;
     _keyCounter := _keyCounter s |}.

(** Modelled from the spec: [setIndent(n)] stores [n] as the block's
    indent level; nothing else changes. *)
Definition setIndent (node : NodeKey) (indent : Z) : M unit :=
  let* n := getLatest node in
  call (fun s => Normal (writeNode node (withIndent n indent) s)).

(** Modelled from the spec: [setFormat(format)] stores the element
    format. *)
Definition setFormat (node : NodeKey) (format : JSValue) : M unit :=
  let* n := getLatest node in
  call (fun s => Normal (writeNode node (withFormat n format) s)).

(** Modelled from the spec: [$getSelection()] yields the session's
    current selection, or [null]. *)
Definition getSelection : M (option Selection) := read _selection.

(** ** Key events *)

(** [event.preventDefault()].  Flow types the payload of the key commands
    as a [KeyboardEvent]; on any other value the method does not exist and
    the call throws. *)
Definition preventDefault (event : JSValue) : M unit :=
  match event with
  | JSKeyboardEvent e =>
      fun w => Done tt (withDefaultPrevented w (eventId e :: defaultPrevented w))
  | _ => throw (TypeError "event.preventDefault is not a function")
  end.

(** [event.shiftKey]: a property read, which throws on [undefined] and
    yields [undefined] on the other non-event values. *)
Definition getShiftKey (event : JSValue) : M JSValue :=
  match event with
  | JSKeyboardEvent e => ret (JSBoolean (shiftKey e))
  | JSUndefined => throw (TypeError "Cannot read properties of undefined")
  | _ => ret JSUndefined
  end.

(** ** Collaborators taken as parameters

    The text-editing methods of the selection object, the arrow-key
    helpers of [outline/events] and [outline/selection], and
    [getTextContent].  They act on the document state only. *)
Class Collaborators := {
  deleteCharacter : Selection -> JSValue -> EditorState -> Completion;
  deleteWord : Selection -> JSValue -> EditorState -> Completion;
  deleteLine : Selection -> JSValue -> EditorState -> Completion;
  insertText : Selection -> JSValue -> EditorState -> Completion;
  removeText : Selection -> EditorState -> Completion;
  formatText : Selection -> JSValue -> EditorState -> Completion;
  insertLineBreak : Selection -> JSValue -> EditorState -> Completion;
  insertParagraph : Selection -> EditorState -> Completion;
  getTextContent : NodeKey -> EditorState -> string;
  shouldOverrideDefaultCharacterSelection :
    Selection -> bool -> EditorState -> bool;
  moveCharacter : Selection -> JSValue -> bool -> EditorState -> Completion
}.

(** The editor's re-entrant dispatch entry point, as the listener sees
    it: [editor.execCommand(type, payload)]. *)
Definition Dispatch : Type := string -> JSValue -> M bool.

(** ** The command listener (lines 133-270) *)

(** The one-character string ['\t']. *)
Definition tab : string := String "009"%char EmptyString.

Section CommandListener.
Context `{Collaborators}.

(** [editor.execCommand], through which a case delegates to another
    command. *)
Variable execCommand : Dispatch.

(** The expression both [indentContent] and [outdentContent] use for
    [parentBlock]:
    [anchor.type === 'element' ? anchor.getNode()
                               : anchor.getNode().getParentOrThrow()]. *)
Definition parentBlockOf (anchor : Point) : M NodeKey :=
  match type anchor with
  | element => getNode anchor
  | text => let* node := getNode anchor in getParentOrThrow node
  end.

(** Lines 191-198: the rest of the [indentContent] case once
    [parentBlock] is resolved. *)
Definition indentBlock (parentBlock : NodeKey) : M bool :=
  let* canTab := canInsertTab parentBlock in
  (if canTab then
     let* _ := execCommand "insertText" (JSString tab) in ret tt
   else
     let* indent := getIndent parentBlock in
     if negb (indent =? 10) then
       let* indent := getIndent parentBlock in
       setIndent parentBlock (indent + 1)
     else ret tt) >>
  ret true.

(** Lines 208-219: the rest of the [outdentContent] case. *)
Definition outdentBlock (anchor : Point) (anchorNode parentBlock : NodeKey)
  : M bool :=
  let* canTab := canInsertTab parentBlock in
  (if canTab then
     let* textContent := read (getTextContent anchorNode) in
     let character := charAt textContent (offset anchor - 1) in
     if isTab character then
       let* _ := execCommand "deleteCharacter" (JSBoolean true) in ret tt
     else ret tt
   else
     let* indent := getIndent parentBlock in
     if negb (indent =? 0) then
       let* indent := getIndent parentBlock in
       setIndent parentBlock (indent - 1)
     else ret tt) >>
  ret true.

Definition commandListener (commandType : string) (payload : JSValue)
  : M bool :=
  let* selection := getSelection in
  match selection with
  | None => ret false
  | Some selection =>
    if String.eqb commandType "deleteCharacter" then
      let isBackward := payload in
      call (deleteCharacter selection isBackward) >> ret true
    else if String.eqb commandType "deleteWord" then
      let isBackward := payload in
      call (deleteWord selection isBackward) >> ret true
    else if String.eqb commandType "deleteLine" then
      let isBackward := payload in
      call (deleteLine selection isBackward) >> ret true
    else if String.eqb commandType "insertText" then
      let text := payload in
      call (insertText selection text) >> ret true
    else if String.eqb commandType "removeText" then
      call (removeText selection) >> ret true
    else if String.eqb commandType "formatText" then
      let format := payload in
      call (formatText selection format) >> ret true
    else if String.eqb commandType "formatElement" then
      let format := payload in
      let* node := getNode (anchor selection) in
      let* isElement := isElementNode node in
      let* element_ := if isElement then ret node else getParentOrThrow node in
      setFormat element_ format >> ret true
    else if String.eqb commandType "insertLineBreak" then
      let selectStart := payload in
      call (insertLineBreak selection selectStart) >> ret true
    else if String.eqb commandType "insertParagraph" then
      call (insertParagraph selection) >> ret true
    else if String.eqb commandType "indentContent" then
      let anchor := anchor selection in
      let* parentBlock := parentBlockOf anchor in
      indentBlock parentBlock
    else if String.eqb commandType "outdentContent" then
      let anchor := anchor selection in
      let* anchorNode := getNode anchor in
      let* parentBlock := parentBlockOf anchor in
      outdentBlock anchor anchorNode parentBlock
    else if String.eqb commandType "keyArrowLeft" then
      let event := payload in
      let* isHoldingShift := getShiftKey event in
      let* override :=
        read (shouldOverrideDefaultCharacterSelection selection true) in
      if override then
        preventDefault event >>
        call (moveCharacter selection isHoldingShift true) >>
        ret true
      else ret false
    else if String.eqb commandType "keyArrowRight" then
      let event := payload in
      let* isHoldingShift := getShiftKey event in
      let* override :=
        read (shouldOverrideDefaultCharacterSelection selection false) in
      if override then
        preventDefault event >>
        call (moveCharacter selection isHoldingShift false) >>
        ret true
      else ret false
    else if String.eqb commandType "keyBackspace" then
      let event := payload in
      preventDefault event >>
      execCommand "deleteCharacter" (JSBoolean true)
    else if String.eqb commandType "keyDelete" then
      let event := payload in
      preventDefault event >>
      execCommand "deleteCharacter" (JSBoolean false)
    else if String.eqb commandType "keyEnter" then
      let event := payload in
      preventDefault event >>
      let* shift := getShiftKey event in
      if truthy shift then execCommand "insertLineBreak" JSUndefined
      else execCommand "insertParagraph" JSUndefined
    else if String.eqb commandType "keyTab" then
      let event := payload in
      preventDefault event >>
      let* shift := getShiftKey event in
      execCommand (if truthy shift then "outdentContent" else "indentContent")
        JSUndefined
    else ret false
  end.

End CommandListener.

(** ** Input-event bindings (lines 52-69) *)

Inductive EventHandler :=
| onSelectionChange | onKeyDown | onCompositionStart | onCompositionEnd
| onCutForRichText | onCopyForRichText | onBeforeInput | onPasteForRichText
| onDropPolyfill | onDragStartPolyfill | onInput | onClick.

(** The array literal of line 52. *)
Definition eventsLiteral : list (string * EventHandler) :=
  [ ("selectionchange", onSelectionChange);
    ("keydown", onKeyDown);
    ("compositionstart", onCompositionStart);
    ("compositionend", onCompositionEnd);
    ("cut", onCutForRichText);
    ("copy", onCopyForRichText);
    ("dragstart", onDragStartPolyfill);
    ("paste", onPasteForRichText);
    ("input", onInput);
    ("click", onClick) ].

(** [events] once the module body has run.  [CAN_USE_BEFORE_INPUT] comes
    from [shared/environment] and is a parameter here. *)
Definition events (CAN_USE_BEFORE_INPUT : bool) : list (string * EventHandler) :=
  if CAN_USE_BEFORE_INPUT
  then eventsLiteral ++ [("beforeinput", onBeforeInput)]
  else eventsLiteral ++ [("drop", onDropPolyfill)].

(** The handlers bound to an event name, in binding order. *)
Definition handlersOf (name : string) (bindings : list (string * EventHandler))
  : list EventHandler :=
  map snd (filter (fun b => String.eqb (fst b) name = true) bindings).

(** ** Lifecycle (lines 71-113 and the mount effect, lines 122-278) *)

Definition readWorld {A} (f : World -> A) : M A := fun w => Done (f w) w.

(** Modelled from the spec: [$log(label)] of the [outline] package is not
    described; it is taken to be a debugging aid that records the label
    and leaves the document alone. *)
Definition log (label : string) : M unit :=
  fun w => Done tt (withDebugLog w (debugLog w ++ [label])).

(** Modelled from the spec: [$getRoot()] yields the document's top-level
    container. *)
Definition getRoot : M NodeKey :=
  let* _ := getLatest rootKey in ret rootKey.

(** Modelled from the spec: [node.getFirstChild()] of the [outline]
    package, the first child or [null] ("first child is absent"). *)
Definition getFirstChild (node : NodeKey) : M (option NodeKey) :=
  let* n := getLatest node in ret (head (__children n)).

(** An empty paragraph block: no children, no text, indent level 0. *)
Definition emptyParagraph (parent : option NodeKey) : OutlineNode :=
  {| __type := ParagraphNode; __parent := parent; __children := [];
     __indent := 0; __format := JSUndefined; __text := "" |}.

(** Modelled from the spec: [$createParagraphNode()] of the [outline]
    package makes a new, empty paragraph block, not yet attached to any
    parent.  Its key is the next one of the key counter. *)
Definition createParagraphNode : M NodeKey :=
  let* k := read _keyCounter in
  call (fun s =>
    Normal {| _nodeMap := <[k := emptyParagraph None]> (_nodeMap s);
              _selection := _selection s;
              _keyCounter := N.succ (_keyCounter s) |}) >>
  ret k.

(** Modelled from the spec: [parent.append(child)] makes [child] the last
    child of [parent]. *)
Definition append (parent child : NodeKey) : M unit :=
  let* c := getLatest child in
  call (fun s => Normal (writeNode child (withParent c (Some parent)) s)) >>
  let* p := getLatest parent in
  call (fun s =>
    Normal (writeNode parent (withChildren p (__children p ++ [child])) s)).

(** Modelled from the spec: removing one child from its parent leaves the
    child without a parent; used by [clear] below. *)
Definition detach (child : NodeKey) (s : EditorState) : EditorState :=
  match _nodeMap s !! child with
  | Some c => writeNode child (withParent c None) s
  | None => s
  end.

(** Modelled from the spec: [root.clear()] empties the node of all its
    children. *)
Definition clear (node : NodeKey) : M unit :=
  let* n := getLatest node in
  call (fun s => Normal (foldr detach s (__children n))) >>
  let* n := getLatest node in
  call (fun s => Normal (writeNode node (withChildren n []) s)).

(** Modelled from the spec: [paragraph.select()] places the selection
    inside the paragraph; for the empty paragraph it is called on, that
    is an element point at offset 0, for anchor and focus alike. *)
Definition select (node : NodeKey) : M unit :=
  let* _ := getLatest node in
  call (fun s =>
    Normal {| _nodeMap := _nodeMap s;
              _selection :=
                Some {| anchor := mkPoint node 0 element;
                        focus := mkPoint node 0 element |};
              _keyCounter := _keyCounter s |}).

(** Modelled from the spec: [editor.update(mutator, options)] runs the
    mutator inside a scoped transaction and commits; the [onUpdate]
    callback, when given, fires after the commit.  A mutator that throws
    commits nothing. *)
Definition update (updateFn : M unit) (onUpdate : option N) : M unit :=
  fun w =>
    match updateFn w with
    | Done _ w' =>
        Done tt
          (withUpdates w'
             (updates w' ++
              Committed (editorState w') ::
              match onUpdate with
              | Some callbackFn => [CallbackFired callbackFn]
              | None => []
              end))
    | Thrown e => Thrown e
    | OutOfFuel => OutOfFuel
    end.

(** Lines 71-77.  [document.activeElement] and [editor.getRootElement()]
    are both an element or [null]. *)
Definition shouldSelectParagraph : M bool :=
  let* activeElement := readWorld activeElement in
  let* selection := getSelection in
  let* rootElement := readWorld rootElement in
  ret (bool_decide (selection <> None)
       || (bool_decide (activeElement <> None)
           && bool_decide (activeElement = rootElement))).

(** Lines 79-85. *)
Definition initParagraph (root : NodeKey) : M unit :=
  let* paragraph := createParagraphNode in
  append root paragraph >>
  let* shouldSelect := shouldSelectParagraph in
  if shouldSelect then select paragraph else ret tt.

(** Lines 87-96. *)
Definition initEditor : M unit :=
  update
    (log "initEditor" >>
     let* root := getRoot in
     let* firstChild := getFirstChild root in
     match firstChild with
     | None => initParagraph root
     | Some _ => ret tt
     end)
    None.

(** Lines 98-113. *)
Definition clearEditor (callbackFn : option N) : M unit :=
  update
    (log "clearEditor" >>
     let* root := getRoot in
     clear root >>
     initParagraph root)
    callbackFn.

(** Line 50. *)
Definition EditorPriority : Z := 0.

(** Modelled from the spec: [editor.registerNodes] and
    [editor.addListener] record a registration with the editor. *)
Definition registerNodes (klasses : list NodeType) : M unit :=
  fun w =>
    Done tt (withRegistrations w (registeredNodes w ++ klasses) (listeners w)).

Definition addListener (l : Listener) : M unit :=
  fun w =>
    Done tt (withRegistrations w (registeredNodes w) (listeners w ++ [l])).

(** The layout effect of [useRichTextSetup] (lines 122-278), run on
    mount: the registrations, then [initEditor] when [init] is set. *)
Definition useRichTextSetup (init : bool) : M unit :=
  registerNodes
    [HeadingNode; ListNode; QuoteNode; CodeNode; ParagraphNode; ListItemNode] >>
  addListener (mkListener "textmutation" OnTextMutation None) >>
  addListener (mkListener "command" CommandListener (Some EditorPriority)) >>
  if init then initEditor else ret tt.

(** ** The editor's dispatch entry point *)

(** Modelled from the spec: [editor.execCommand(name, payload)] invokes
    the registered command handlers synchronously, in priority order; a
    handler that returns handled stops the walk, and the command is
    unhandled when no handler claims it.  Handlers may call back into
    [execCommand]; the nesting depth is bounded by [fuel]. *)
Fixpoint triggerCommandListeners (handlers : list Dispatch) : Dispatch :=
  fun commandType payload =>
    match handlers with
    | [] => ret false
    | handler :: rest =>
        let* handled := handler commandType payload in
        if handled then ret true
        else triggerCommandListeners rest commandType payload
    end.

Fixpoint execCommand (fuel : nat) (handlers : list (Dispatch -> Dispatch))
  : Dispatch :=
  match fuel with
  | O => fun _ _ _ => OutOfFuel
  | S fuel' =>
      triggerCommandListeners
        (map (fun handler => handler (execCommand fuel' handlers)) handlers)
  end.

(** The editor as [useRichTextSetup] leaves it when the host registers
    no command handler of its own: this file's listener alone. *)
Definition richTextEditor `{Collaborators} (fuel : nat) : Dispatch :=
  execCommand fuel [commandListener].

(** ** What a dispatch does to the document

    The "model effect" of a dispatch: the handled flag and the document
    state it leaves, or the fault it raises.  Host-side facts (which key
    events had their default prevented) are not part of it. *)
Inductive Effect :=
| Returned (handled : bool) (s : EditorState)
| Faulted (e : Exception)
| Unfinished.

Definition modelEffect (o : Outcome bool) : Effect :=
  match o with
  | Done handled w => Returned handled (editorState w)
  | Thrown e => Faulted e
  | OutOfFuel => Unfinished
  end.

(** The outcome of a case that calls a delegate, drops its handled flag
    and returns [true]. *)
Definition thenHandled (o : Outcome bool) : Outcome bool :=
  match o with
  | Done _ w => Done true w
  | Thrown e => Thrown e
  | OutOfFuel => OutOfFuel
  end.

(** ** The enclosing block, in the words of the description

    "The anchor node itself if it is already block-level, else its
    nearest block ancestor."  Block-level nodes are the element nodes. *)
Definition isBlock (node : NodeKey) (s : EditorState) : bool :=
  match _nodeMap s !! node with
  | Some n => isElementType (__type n)
  | None => false
  end.




Definition pointAgrees (point : Point) (s : EditorState) : Prop :=
  type point = element <-> isBlock (key point) s = true.

(** The root has exactly one child, [paragraph], and that child is an
    empty paragraph attached to the root. *)
Definition singleEmptyParagraph (paragraph : NodeKey) (s : EditorState) : Prop :=
  (exists root, _nodeMap s !! rootKey = Some root
                /\ __children root = [paragraph])
  /\ _nodeMap s !! paragraph = Some (emptyParagraph (Some rootKey)).

(** The collapsed selection [paragraph.select()] leaves. *)
Definition insideAtStart (paragraph : NodeKey) : Selection :=
  {| anchor := mkPoint paragraph 0 element;
     focus := mkPoint paragraph 0 element |}.

(** ** A small set of collaborators for the worked examples

    Plain text editing on a collapsed selection inside one text node.
    The methods the examples do not exercise leave the document as it
    is. *)
Module Examples.

Definition removeAt (i : nat) (t : string) : string :=
  String.substring 0 i t ++
  String.substring (S i) (String.length t - S i) t.

Definition insertAt (i : nat) (x t : string) : string :=
  String.substring 0 i t ++ x ++
  String.substring i (String.length t - i) t.

Definition editText (node : NodeKey) (f : string -> string)
  (s : EditorState) : EditorState :=
  match _nodeMap s !! node with
  | Some n => writeNode node (withText n (f (__text n))) s
  | None => s
  end.

Definition collapseAt (point : Point) (o : Z) (s : EditorState)
  : EditorState :=
  {| _nodeMap := _nodeMap s;
     _selection :=
       Some {| anchor := mkPoint (key point) o (type point);
               focus := mkPoint (key point) o (type point) |};
     _keyCounter := _keyCounter s |}.

(** Delete one character relative to the anchor, direction per flag. *)
Definition simpleDeleteCharacter (selection : Selection)
  (isBackward : JSValue) (s : EditorState) : Completion :=
  let a := anchor selection in
  match type a with
  | element => Normal s
  | text =>
      if truthy isBackward then
        if 0 <? offset a then
          Normal (collapseAt a (offset a - 1)
                    (editText (key a)
                       (removeAt (Z.to_nat (offset a - 1))) s))
        else Normal s
      else
        Normal (editText (key a) (removeAt (Z.to_nat (offset a))) s)
  end.

(** Insert literal text at the anchor. *)
Definition simpleInsertText (selection : Selection) (content : JSValue)
  (s : EditorState) : Completion :=
  let a := anchor selection in
  match type a, content with
  | text, JSString x =>
      Normal (collapseAt a (offset a + Z.of_nat (String.length x))
                (editText (key a) (insertAt (Z.to_nat (offset a)) x) s))
  | _, _ => Normal s
  end.

Definition newline : string := String "010"%char EmptyString.

(** Insert a soft line break; if [selectStart], the selection stays
    before the break, else it moves after it. *)
Definition simpleInsertLineBreak (selection : Selection)
  (selectStart : JSValue) (s : EditorState) : Completion :=
  let a := anchor selection in
  match type a with
  | element => Normal s
  | text =>
      Normal (collapseAt a
                (if truthy selectStart then offset a else offset a + 1)
                (editText (key a) (insertAt (Z.to_nat (offset a)) newline) s))
  end.

(** Text nodes carry their text; an element's text content is that of
    its children, in order. *)
Definition simpleTextContent (node : NodeKey) (s : EditorState) : string :=
  match _nodeMap s !! node with
  | Some n =>
      if isElementType (__type n) then
        foldr (fun c acc =>
                 match _nodeMap s !! c with
                 | Some cn => __text cn ++ acc
                 | None => acc
                 end) "" (__children n)
      else __text n
  | None => ""
  end.

#[global] Instance simple : Collaborators := {|
  deleteCharacter := simpleDeleteCharacter;
  deleteWord := fun _ _ s => Normal s;
  deleteLine := fun _ _ s => Normal s;
  insertText := simpleInsertText;
  removeText := fun _ s => Normal s;
  formatText := fun _ _ s => Normal s;
  insertLineBreak := simpleInsertLineBreak;
  insertParagraph := fun _ s => Normal s;
  getTextContent := simpleTextContent;
  shouldOverrideDefaultCharacterSelection := fun _ _ _ => false;
  moveCharacter := fun _ _ _ s => Normal s
|}.

Definition node (t : NodeType) (parent : option NodeKey)
  (children : list NodeKey) (indent : Z) (content : string) : OutlineNode :=
  {| __type := t; __parent := parent; __children := children;
     __indent := indent; __format := JSUndefined; __text := content |}.

(** root(0) -> [ code(1) -> [ text(2) = "\tx" ];
                paragraph(3, indent 2) -> [ text(4) = "hi" ] ];
    text(9) is an orphan: a text node with no parent. *)
Definition nodes : gmap N OutlineNode :=
  <[0%N := node RootNode None [1%N; 3%N] 0 ""]>
  (<[1%N := node CodeNode (Some 0%N) [2%N] 0 ""]>
  (<[2%N := node TextNode (Some 1%N) [] 0 (tab ++ "x")]>
  (<[3%N := node ParagraphNode (Some 0%N) [4%N] 2 ""]>
  (<[4%N := node TextNode (Some 3%N) [] 0 "hi"]>
  (<[9%N := node TextNode None [] 0 "lost"]> ∅))))).

Definition document (selection : option Selection) : EditorState :=
  {| _nodeMap := nodes; _selection := selection; _keyCounter := 10%N |}.

Definition world (s : EditorState) : World :=
  {| editorState := s;
     activeElement := None;
     rootElement := Some 7%N;
     defaultPrevented := [];
     debugLog := [];
     updates := [];
     registeredNodes := [];
     listeners := [] |}.

Definition caret (node : NodeKey) (o : Z) (t : PointType) : Selection :=
  {| anchor := mkPoint node o t; focus := mkPoint node o t |}.

(** Caret right after the tab of the code block's text. *)
Definition afterTab : World := world (document (Some (caret 2%N 1 text))).
(** Caret at the very start of the code block's text. *)
Definition atStart : World := world (document (Some (caret 2%N 0 text))).
(** Caret after the "x" of the code block's text. *)
Definition afterX : World := world (document (Some (caret 2%N 2 text))).
(** Caret inside the indented paragraph. *)
Definition inParagraph : World := world (document (Some (caret 4%N 1 text))).
(** No selection. *)
Definition unselected : World := world (document None).

(** A document whose root has no children; the surface is not focused
    and there is no selection. *)
Definition emptyDocument : EditorState :=
  {| _nodeMap := <[0%N := node RootNode None [] 0 ""]> ∅;
     _selection := None;
     _keyCounter := 1%N |}.

Definition blank : World := world emptyDocument.

(** The same, with the editing surface holding input focus. *)
Definition blankFocused : World :=
  {| editorState := emptyDocument;
     activeElement := Some 7%N;
     rootElement := Some 7%N;
     defaultPrevented := [];
     debugLog := [];
     updates := [];
     registeredNodes := [];
     listeners := [] |}.

Definition shiftEnter : KeyboardEvent := mkKeyboardEvent 1 true.
Definition plainKey : KeyboardEvent := mkKeyboardEvent 2 false.

(** A command handler a host may install above this file's listener:
    on [insertText] it drops the selection and declines, leaving the
    command to the handlers below it. *)
Definition blurOnInsert : Dispatch -> Dispatch :=
  fun _ commandType _ =>
    if String.eqb commandType "insertText" then
      call (fun s =>
        Normal {| _nodeMap := _nodeMap s;
                  _selection := None;
                  _keyCounter := _keyCounter s |}) >>
      ret false
    else ret false.

(** An editor with that host handler ahead of the rich-text listener. *)
Definition hostedEditor (fuel : nat) : Dispatch :=
  execCommand fuel [blurOnInsert; commandListener].

End Examples.

(** ** Notions used to state further properties *)

(** The command names the switch of the listener has a case for. *)
Definition commandNames : list string :=
  [ "deleteCharacter"; "deleteWord"; "deleteLine"; "insertText";
    "removeText"; "formatText"; "formatElement"; "insertLineBreak";
    "insertParagraph"; "indentContent"; "outdentContent"; "keyArrowLeft";
    "keyArrowRight"; "keyBackspace"; "keyDelete"; "keyEnter"; "keyTab" ].

(** The cases that call a method and [return true] without going through
    [editor.execCommand]. *)
Definition directCommands : list string :=
  [ "deleteCharacter"; "deleteWord"; "deleteLine"; "insertText";
    "removeText"; "formatText"; "formatElement"; "insertLineBreak";
    "insertParagraph" ].

(** The cases that end in an unconditional [return true]. *)
Definition editingCommands : list string :=
  (directCommands ++ ["indentContent"; "outdentContent"])%list.

(** How many nested [execCommand] calls a case can make: [keyTab] reaches
    [indentContent] or [outdentContent], which reach [insertText] or
    [deleteCharacter]; the other key cases reach a direct command. *)
Definition delegationDepth (commandType : string) : nat :=
  if String.eqb commandType "keyTab" then 2%nat
  else if String.eqb commandType "indentContent"
          || String.eqb commandType "outdentContent"
          || String.eqb commandType "keyBackspace"
          || String.eqb commandType "keyDelete"
          || String.eqb commandType "keyEnter" then 1%nat
  else 0%nat.

(** Two outcomes that agree on everything but the host side of the
    world. *)
Definition sameModel {A} (o1 o2 : Outcome A) : Prop :=
  match o1, o2 with
  | Done a1 w1, Done a2 w2 => a1 = a2 /\ editorState w1 = editorState w2
  | Thrown e1, Thrown e2 => e1 = e2
  | OutOfFuel, OutOfFuel => True
  | _, _ => False
  end.

(** A computation whose value and document effect depend on the document
    state alone. *)
Definition modelOnly {A} (c : M A) : Prop :=
  forall w1 w2, editorState w1 = editorState w2 -> sameModel (c w1) (c w2).

(** A computation that never runs out of nesting budget. *)
Definition finishes {A} (c : M A) : Prop := forall w, c w <> OutOfFuel.

(** A computation that leaves the host side of the world alone. *)
Definition hostUntouched {A} (c : M A) : Prop :=
  forall w a w', c w = Done a w' -> w' = withEditorState w (editorState w').

(** A computation whose only possible effect on the host side is to
    prevent the default of [event], once. *)
Definition preventsOnce {A} (event : KeyboardEvent) (c : M A) : Prop :=
  forall w a w',
    c w = Done a w' ->
    w' = withEditorState w (editorState w')
    \/ w' = withEditorState
              (withDefaultPrevented w (eventId event :: defaultPrevented w))
              (editorState w').

(** A payload that is not a key event. *)
Definition notAnEvent (payload : JSValue) : Prop :=
  forall event, payload <> JSKeyboardEvent event.

(** A document with a root, whose keys all lie below the key counter. *)
Definition wellFormed (s : EditorState) : Prop :=
  is_Some (_nodeMap s !! rootKey)
  /\ forall node, is_Some (_nodeMap s !! node) -> (node < _keyCounter s)%N.

(** The heuristic of [shouldSelectParagraph], as a proposition. *)
Definition selectionVisible (w : World) : Prop :=
  _selection (editorState w) <> None
  \/ exists dom, activeElement w = Some dom /\ rootElement w = Some dom.

(** More sample documents for the worked examples. *)
Module Samples.

(** root(0) -> [ paragraph(1, indent 11) -> [ text(2) = "deep" ] ]:
    a paragraph whose indent level lies above the range. *)
Definition deepNodes : gmap N OutlineNode :=
  <[0%N := Examples.node RootNode None [1%N] 0 ""]>
  (<[1%N := Examples.node ParagraphNode (Some 0%N) [2%N] 11 ""]>
  (<[2%N := Examples.node TextNode (Some 1%N) [] 0 "deep"]> ∅)).

Definition deep : World :=
  Examples.world
    {| _nodeMap := deepNodes;
       _selection := Some (Examples.caret 2%N 0 text);
       _keyCounter := 3%N |}.

(** Collaborators whose arrow-key predicate always asks for the
    override, and whose [$moveCharacter] moves the focus by one character
    in the given direction, taking the anchor along unless shift is
    held. *)
Definition stepCaret (selection : Selection) (isHoldingShift : JSValue)
  (isBackward : bool) (s : EditorState) : Completion :=
  let f := focus selection in
  let moved :=
    mkPoint (key f) (offset f + (if isBackward then -1 else 1)) (type f) in
  Normal {| _nodeMap := _nodeMap s;
            _selection :=
              Some {| anchor := if truthy isHoldingShift
                                then anchor selection else moved;
                      focus := moved |};
            _keyCounter := _keyCounter s |}.

Definition overriding : Collaborators := {|
  deleteCharacter := Examples.simpleDeleteCharacter;
  deleteWord := fun _ _ s => Normal s;
  deleteLine := fun _ _ s => Normal s;
  insertText := Examples.simpleInsertText;
  removeText := fun _ s => Normal s;
  formatText := fun _ _ s => Normal s;
  insertLineBreak := Examples.simpleInsertLineBreak;
  insertParagraph := fun _ s => Normal s;
  getTextContent := Examples.simpleTextContent;
  shouldOverrideDefaultCharacterSelection := fun _ _ _ => true;
  moveCharacter := stepCaret
|}.





End Samples.

(** * Properties *)

(** ** Unfolding the listener at one command *)

Section ListenerEquations.
Context `{Collaborators}.
Variable execCommand : Dispatch.

Lemma commandListener_unselected commandType payload w :
  _selection (editorState w) = None ->
  commandListener execCommand commandType payload w = Done false w.
Proof.
  intros Hsel. unfold commandListener, bind, getSelection, read.
  rewrite Hsel. reflexivity.
Qed.

Lemma commandListener_indentContent payload w selection :
  _selection (editorState w) = Some selection ->
  commandListener execCommand "indentContent" payload w =
  bind (parentBlockOf (anchor selection)) (indentBlock execCommand) w.
Proof.
  intros Hsel. unfold commandListener. unfold bind at 1.
  unfold getSelection, read. rewrite Hsel. reflexivity.
Qed.

Lemma commandListener_outdentContent payload w selection :
  _selection (editorState w) = Some selection ->
  commandListener execCommand "outdentContent" payload w =
  bind (getNode (anchor selection))
    (fun anchorNode =>
       bind (parentBlockOf (anchor selection))
         (outdentBlock execCommand (anchor selection) anchorNode)) w.
Proof.
  intros Hsel. unfold commandListener. unfold bind at 1.
  unfold getSelection, read. rewrite Hsel. reflexivity.
Qed.

Lemma getLatest_lookup node w n :
  _nodeMap (editorState w) !! node = Some n -> getLatest node w = Done n w.
Proof. intros Hn. unfold getLatest. rewrite Hn. reflexivity. Qed.

Lemma getIndent_Done node w indent w' :
  getIndent node w = Done indent w' ->
  exists n, _nodeMap (editorState w) !! node = Some n /\ __indent n = indent.
Proof.
  unfold getIndent, bind, getLatest, ret.
  destruct (_nodeMap (editorState w) !! node) as [n|]; [|discriminate].
  intros [= <- _]. exists n. split; reflexivity.
Qed.

Lemma setIndent_lookup node w n indent :
  _nodeMap (editorState w) !! node = Some n ->
  setIndent node indent w =
  Done tt (withEditorState w (writeNode node (withIndent n indent) (editorState w))).
Proof.
  intros Hn. unfold setIndent, bind. rewrite (getLatest_lookup _ _ _ Hn).
  reflexivity.
Qed.

Lemma getIndent_written node w n indent :
  let w' := withEditorState w
              (writeNode node (withIndent n indent) (editorState w)) in
  getIndent node w' = Done indent w'.
Proof.
  intros w'. unfold getIndent, bind, getLatest, ret. subst w'. simpl.
  rewrite lookup_insert_eq. reflexivity.
Qed.

(** A resolved parent block means the anchor's node exists. *)
Lemma parentBlockOf_getNode point w parentBlock w' :
  parentBlockOf point w = Done parentBlock w' ->
  getNode point w = Done (key point) w.
Proof.
  unfold parentBlockOf, getNode, bind, getLatest, ret.
  destruct (type point);
    destruct (_nodeMap (editorState w) !! key point); try discriminate;
    reflexivity.
Qed.

(** Once the parent block is resolved, the two cases continue with
    lines 191-198 and 208-219. *)
Lemma commandListener_indentContent_resolved payload w selection parentBlock :
  _selection (editorState w) = Some selection ->
  parentBlockOf (anchor selection) w = Done parentBlock w ->
  commandListener execCommand "indentContent" payload w =
  indentBlock execCommand parentBlock w.
Proof.
  intros Hsel Hblock. rewrite (commandListener_indentContent _ _ _ Hsel).
  unfold bind. rewrite Hblock. reflexivity.
Qed.

Lemma commandListener_outdentContent_resolved payload w selection parentBlock :
  _selection (editorState w) = Some selection ->
  parentBlockOf (anchor selection) w = Done parentBlock w ->
  commandListener execCommand "outdentContent" payload w =
  outdentBlock execCommand (anchor selection) (key (anchor selection))
    parentBlock w.
Proof.
  intros Hsel Hblock. rewrite (commandListener_outdentContent _ _ _ Hsel).
  unfold bind. rewrite (parentBlockOf_getNode _ _ _ _ Hblock).
  rewrite Hblock. reflexivity.
Qed.

(** The non-tab branch of [indentBlock] and [outdentBlock]: one step
    towards the bound, nothing at the bound. *)
Lemma indentBlock_step parentBlock w n :
  canInsertTab parentBlock w = Done false w ->
  getIndent parentBlock w = Done n w ->
  indentBlock execCommand parentBlock w =
  if n =? 10 then Done true w
  else thenHandled
         (bind (setIndent parentBlock (n + 1)) (fun _ => ret true) w).
Proof.
  intros Htab Hind. unfold indentBlock. unfold bind at 1. rewrite Htab.
  unfold bind at 1. unfold bind at 1. rewrite Hind.
  destruct (n =? 10); simpl; [reflexivity|].
  unfold bind at 1. rewrite Hind. unfold bind.
  destruct (setIndent parentBlock (n + 1) w); reflexivity.
Qed.

Lemma outdentBlock_step point anchorNode parentBlock w n :
  canInsertTab parentBlock w = Done false w ->
  getIndent parentBlock w = Done n w ->
  outdentBlock execCommand point anchorNode parentBlock w =
  if n =? 0 then Done true w
  else thenHandled
         (bind (setIndent parentBlock (n - 1)) (fun _ => ret true) w).
Proof.
  intros Htab Hind. unfold outdentBlock. unfold bind at 1. rewrite Htab.
  unfold bind at 1. unfold bind at 1. rewrite Hind.
  destruct (n =? 0); simpl; [reflexivity|].
  unfold bind at 1. rewrite Hind. unfold bind.
  destruct (setIndent parentBlock (n - 1) w); reflexivity.
Qed.

(** The tab branch of [indentBlock]. *)
Lemma indentBlock_tab parentBlock w :
  canInsertTab parentBlock w = Done true w ->
  indentBlock execCommand parentBlock w =
  thenHandled (execCommand "insertText" (JSString tab) w).
Proof.
  intros Htab. unfold indentBlock. unfold bind at 1. rewrite Htab.
  unfold bind.
  destruct (execCommand "insertText" (JSString tab) w); reflexivity.
Qed.

(** The tab branch of [outdentBlock], by the character before the
    anchor offset. *)
Lemma outdentBlock_tab point anchorNode parentBlock w :
  canInsertTab parentBlock w = Done true w ->
  outdentBlock execCommand point anchorNode parentBlock w =
  if isTab (charAt (getTextContent anchorNode (editorState w))
                   (offset point - 1))
  then thenHandled (execCommand "deleteCharacter" (JSBoolean true) w)
  else Done true w.
Proof.
  intros Htab. unfold outdentBlock. unfold bind at 1. rewrite Htab.
  unfold bind, read.
  destruct (isTab _); [|reflexivity].
  destruct (execCommand "deleteCharacter" (JSBoolean true) w); reflexivity.
Qed.

End ListenerEquations.

Lemma isTab_true character : isTab character = true <-> character = Some "009"%char.
Proof.
  destruct character as [c|]; simpl.
  - rewrite Ascii.eqb_eq. split; [intros ->; reflexivity | intros [= ->]; reflexivity].
  - split; discriminate.
Qed.

Lemma charAt_before_start content i : i < 0 -> charAt content i = None.
Proof.
  intros Hi. unfold charAt.
  destruct (0 <=? i) eqn:E; [apply Z.leb_le in E; lia | reflexivity].
Qed.

(** ** The dispatcher with this listener alone *)

Lemma triggerCommandListeners_single (handler : Dispatch) commandType payload w :
  triggerCommandListeners [handler] commandType payload w
  = handler commandType payload w.
Proof.
  simpl. unfold bind, ret.
  destruct (handler commandType payload w) as [[|] w'| |]; reflexivity.
Qed.

Lemma richTextEditor_step `{Collaborators} fuel commandType payload w :
  richTextEditor (S fuel) commandType payload w
  = commandListener (richTextEditor fuel) commandType payload w.
Proof. unfold richTextEditor. simpl execCommand. simpl map.
  apply triggerCommandListeners_single. Qed.

(** With this listener alone installed, a dispatched [insertText] or
    [deleteCharacter] reaches the selection's method and is handled. *)
Lemma richTextEditor_insertText `{Collaborators} fuel payload w selection :
  _selection (editorState w) = Some selection ->
  richTextEditor (S fuel) "insertText" payload w
  = match insertText selection payload (editorState w) with
    | Normal s => Done true (withEditorState w s)
    | Abrupt e => Thrown e
    end.
Proof.
  intros Hsel. rewrite richTextEditor_step.
  unfold commandListener, bind, getSelection, read, call. rewrite Hsel. simpl.
  destruct (insertText selection payload (editorState w)); reflexivity.
Qed.

Lemma richTextEditor_deleteCharacter `{Collaborators} fuel payload w selection :
  _selection (editorState w) = Some selection ->
  richTextEditor (S fuel) "deleteCharacter" payload w
  = match deleteCharacter selection payload (editorState w) with
    | Normal s => Done true (withEditorState w s)
    | Abrupt e => Thrown e
    end.
Proof.
  intros Hsel. rewrite richTextEditor_step.
  unfold commandListener, bind, getSelection, read, call. rewrite Hsel. simpl.
  destruct (deleteCharacter selection payload (editorState w)); reflexivity.
Qed.

(** ** The command listener, case by case *)

(** C3.  With no active selection, the listener returns unhandled
    ([false]) for every command name and every payload and leaves the
    whole world as it was; so does the editor that has this listener
    installed, at any positive nesting budget. *)
Theorem no_selection_unhandled `{Collaborators} (execCommand : Dispatch)
    (commandType : string) (payload : JSValue) (w : World) (fuel : nat) :
  _selection (editorState w) = None ->
  commandListener execCommand commandType payload w = Done false w
  /\ richTextEditor (S fuel) commandType payload w = Done false w.
Proof.
  intros Hsel. split.
  - apply commandListener_unselected, Hsel.
  - unfold richTextEditor. simpl. unfold bind.
    rewrite commandListener_unselected by exact Hsel. reflexivity.
Qed.

Lemma no_selection_unhandled_witness :
  commandListener (richTextEditor 1) "keyTab"
    (JSKeyboardEvent Examples.plainKey) Examples.unselected
  = Done false Examples.unselected
  /\ richTextEditor 1 "keyTab"
       (JSKeyboardEvent Examples.plainKey) Examples.unselected
     = Done false Examples.unselected.
Proof.
  apply (no_selection_unhandled (richTextEditor 1) "keyTab"
           (JSKeyboardEvent Examples.plainKey) Examples.unselected 0).
  reflexivity.
Defined.

(** C1.  [indentContent] with an active selection whose enclosing block
    is [parentBlock], at indent level [n].  A block that cannot take a
    literal tab goes from [n] to [n + 1] when [0 <= n < 10] (by one
    [setIndent], nothing else) and is left alone at [n = 10].  A block
    that can take a literal tab is never given a new indent level by the
    listener: the outcome is that of re-dispatching [insertText] with
    the one-character string of a tab, with handled set to [true].  With
    this listener alone installed, that dispatch ends in the selection's
    [insertText] on the tab, at any nesting budget of two or more. *)
Theorem indentContent_effect `{Collaborators} (execCommand : Dispatch)
    (payload : JSValue) (w : World) (selection : Selection)
    (parentBlock : NodeKey) (n : Z) :
  _selection (editorState w) = Some selection ->
  parentBlockOf (anchor selection) w = Done parentBlock w ->
  getIndent parentBlock w = Done n w ->
  (canInsertTab parentBlock w = Done false w -> 0 <= n < 10 ->
     exists w',
       commandListener execCommand "indentContent" payload w = Done true w'
       /\ setIndent parentBlock (n + 1) w = Done tt w'
       /\ getIndent parentBlock w' = Done (n + 1) w')
  /\ (canInsertTab parentBlock w = Done false w -> n = 10 ->
     commandListener execCommand "indentContent" payload w = Done true w)
  /\ (canInsertTab parentBlock w = Done true w ->
     commandListener execCommand "indentContent" payload w
     = thenHandled (execCommand "insertText" (JSString tab) w))
  /\ (canInsertTab parentBlock w = Done true w ->
     forall fuel,
       richTextEditor (S (S fuel)) "indentContent" payload w
       = match insertText selection (JSString tab) (editorState w) with
         | Normal s => Done true (withEditorState w s)
         | Abrupt e => Thrown e
         end).
Proof.
  intros Hsel Hblock Hind.
  assert (Hinstalled :
    canInsertTab parentBlock w = Done true w ->
    forall fuel,
      richTextEditor (S (S fuel)) "indentContent" payload w
      = match insertText selection (JSString tab) (editorState w) with
        | Normal s => Done true (withEditorState w s)
        | Abrupt e => Thrown e
        end).
  { intros Htab fuel. rewrite richTextEditor_step.
    rewrite (commandListener_indentContent_resolved _ _ _ _ _ Hsel Hblock).
    rewrite (indentBlock_tab _ _ _ Htab).
    rewrite (richTextEditor_insertText _ _ _ _ Hsel).
    destruct (insertText selection (JSString tab) (editorState w));
      reflexivity. }
  rewrite (commandListener_indentContent_resolved _ _ _ _ _ Hsel Hblock).
  destruct (getIndent_Done _ _ _ _ Hind) as (nd & Hnd & Hn).
  repeat split.
  - intros Htab Hrange.
    rewrite (indentBlock_step _ _ _ _ Htab Hind).
    replace (n =? 10) with false by (symmetry; apply Z.eqb_neq; lia).
    unfold bind. rewrite (setIndent_lookup _ _ _ _ Hnd). simpl.
    eexists. split; [reflexivity|]. split; [reflexivity|].
    apply getIndent_written.
  - intros Htab ->. rewrite (indentBlock_step _ _ _ _ Htab Hind). reflexivity.
  - intros Htab. apply indentBlock_tab, Htab.
  - exact Hinstalled.
Qed.

Lemma indentContent_effect_witness :
  exists w',
    commandListener (richTextEditor 2) "indentContent" JSUndefined
      Examples.inParagraph = Done true w'
    /\ getIndent 3%N Examples.inParagraph = Done 2 Examples.inParagraph
    /\ getIndent 3%N w' = Done 3 w'.
Proof.
  destruct (indentContent_effect (richTextEditor 2) JSUndefined
              Examples.inParagraph (Examples.caret 4%N 1 text) 3%N 2
              eq_refl eq_refl eq_refl) as (Hstep & _ & _ & _).
  destruct (Hstep eq_refl ltac:(lia)) as (w' & Hrun & _ & Hind).
  exists w'. split; [exact Hrun|]. split; [reflexivity | exact Hind].
Defined.

(** C2.  [outdentContent] with an active selection whose enclosing block
    is [parentBlock], at indent level [n].  A block that cannot take a
    literal tab goes from [n] to [n - 1] when [0 < n <= 10] and is left
    alone at [n = 0].  In a block that can take a literal tab,
    [deleteCharacter] with [true] is re-dispatched exactly when the
    character just before the anchor offset, in the text content of the
    anchor's node, is a tab; otherwise nothing changes.  The listener
    returns [true] either way.  With this listener alone installed, the
    re-dispatch ends in the selection's [deleteCharacter] with [true], at
    any nesting budget of two or more. *)
Theorem outdentContent_effect `{Collaborators} (execCommand : Dispatch)
    (payload : JSValue) (w : World) (selection : Selection)
    (parentBlock : NodeKey) (n : Z) :
  _selection (editorState w) = Some selection ->
  parentBlockOf (anchor selection) w = Done parentBlock w ->
  getIndent parentBlock w = Done n w ->
  let character :=
    charAt (getTextContent (key (anchor selection)) (editorState w))
           (offset (anchor selection) - 1) in
  (canInsertTab parentBlock w = Done false w -> 0 < n <= 10 ->
     exists w',
       commandListener execCommand "outdentContent" payload w = Done true w'
       /\ setIndent parentBlock (n - 1) w = Done tt w'
       /\ getIndent parentBlock w' = Done (n - 1) w')
  /\ (canInsertTab parentBlock w = Done false w -> n = 0 ->
     commandListener execCommand "outdentContent" payload w = Done true w)
  /\ (canInsertTab parentBlock w = Done true w ->
     character = Some "009"%char ->
     commandListener execCommand "outdentContent" payload w
     = thenHandled (execCommand "deleteCharacter" (JSBoolean true) w))
  /\ (canInsertTab parentBlock w = Done true w ->
     character <> Some "009"%char ->
     commandListener execCommand "outdentContent" payload w = Done true w)
  /\ (canInsertTab parentBlock w = Done true w ->
     character = Some "009"%char ->
     forall fuel,
       richTextEditor (S (S fuel)) "outdentContent" payload w
       = match deleteCharacter selection (JSBoolean true) (editorState w) with
         | Normal s => Done true (withEditorState w s)
         | Abrupt e => Thrown e
         end).
Proof.
  intros Hsel Hblock Hind character.
  assert (Hinstalled :
    canInsertTab parentBlock w = Done true w ->
    character = Some "009"%char ->
    forall fuel,
      richTextEditor (S (S fuel)) "outdentContent" payload w
      = match deleteCharacter selection (JSBoolean true) (editorState w) with
        | Normal s => Done true (withEditorState w s)
        | Abrupt e => Thrown e
        end).
  { intros Htab Hchar fuel. rewrite richTextEditor_step.
    rewrite (commandListener_outdentContent_resolved _ _ _ _ _ Hsel Hblock).
    rewrite (outdentBlock_tab _ _ _ _ _ Htab).
    fold character. rewrite Hchar. simpl isTab. cbv iota.
    rewrite (richTextEditor_deleteCharacter _ _ _ _ Hsel).
    destruct (deleteCharacter selection (JSBoolean true) (editorState w));
      reflexivity. }
  rewrite (commandListener_outdentContent_resolved _ _ _ _ _ Hsel Hblock).
  destruct (getIndent_Done _ _ _ _ Hind) as (nd & Hnd & Hn).
  repeat split.
  - intros Htab Hrange.
    rewrite (outdentBlock_step _ _ _ _ _ _ Htab Hind).
    replace (n =? 0) with false by (symmetry; apply Z.eqb_neq; lia).
    unfold bind. rewrite (setIndent_lookup _ _ _ _ Hnd). simpl.
    eexists. split; [reflexivity|]. split; [reflexivity|].
    apply getIndent_written.
  - intros Htab ->. rewrite (outdentBlock_step _ _ _ _ _ _ Htab Hind).
    reflexivity.
  - intros Htab Hchar. rewrite (outdentBlock_tab _ _ _ _ _ Htab).
    fold character. rewrite Hchar. reflexivity.
  - intros Htab Hchar. rewrite (outdentBlock_tab _ _ _ _ _ Htab).
    fold character. destruct (isTab character) eqn:E; [|reflexivity].
    apply isTab_true in E. contradiction.
  - exact Hinstalled.
Qed.

(** In the worked example the caret sits right after the tab of the code
    block's text ["\tx"]: the delegate runs and the text becomes ["x"]. *)
Lemma outdentContent_effect_witness :
  commandListener (richTextEditor 2) "outdentContent" JSUndefined
    Examples.afterTab
  = thenHandled
      (richTextEditor 2 "deleteCharacter" (JSBoolean true) Examples.afterTab)
  /\ match commandListener (richTextEditor 2) "outdentContent" JSUndefined
             Examples.afterTab with
     | Done handled w' =>
         handled = true
         /\ Examples.simpleTextContent 2%N (editorState w') = "x"
     | _ => False
     end.
Proof.
  destruct (outdentContent_effect (richTextEditor 2) JSUndefined
              Examples.afterTab (Examples.caret 2%N 1 text) 1%N 0
              eq_refl eq_refl eq_refl) as (_ & _ & Htab & _ & _).
  split.
  - apply Htab; reflexivity.
  - vm_compute. split; reflexivity.
Defined.

(** C10.  [outdentContent] in a block that can take a literal tab, with
    the anchor offset at 0 or with a character other than a tab before
    it: the lookup [textContent[offset - 1]] yields no character at
    offset 0, nothing is deleted, nothing is thrown, the world is left as
    it was, and the listener returns [true]. *)
Theorem outdentContent_without_tab `{Collaborators} (execCommand : Dispatch)
    (payload : JSValue) (w : World) (selection : Selection)
    (parentBlock : NodeKey) :
  _selection (editorState w) = Some selection ->
  parentBlockOf (anchor selection) w = Done parentBlock w ->
  canInsertTab parentBlock w = Done true w ->
  let textContent :=
    getTextContent (key (anchor selection)) (editorState w) in
  offset (anchor selection) = 0
  \/ charAt textContent (offset (anchor selection) - 1) <> Some "009"%char ->
  commandListener execCommand "outdentContent" payload w = Done true w
  /\ (offset (anchor selection) = 0 ->
      charAt textContent (offset (anchor selection) - 1) = None).
Proof.
  intros Hsel Hblock Htab textContent Hchar.
  assert (Hstart : offset (anchor selection) = 0 ->
                   charAt textContent (offset (anchor selection) - 1) = None).
  { intros Hzero. apply charAt_before_start. lia. }
  split; [|exact Hstart].
  rewrite (commandListener_outdentContent_resolved _ _ _ _ _ Hsel Hblock).
  rewrite (outdentBlock_tab _ _ _ _ _ Htab). fold textContent.
  destruct (isTab (charAt textContent (offset (anchor selection) - 1))) eqn:E;
    [|reflexivity].
  apply isTab_true in E. destruct Hchar as [Hzero|Hother].
  - rewrite (Hstart Hzero) in E. discriminate.
  - contradiction.
Qed.

Lemma outdentContent_without_tab_witness :
  (commandListener (richTextEditor 2) "outdentContent" JSUndefined
     Examples.atStart = Done true Examples.atStart
   /\ (0 = 0 -> charAt (tab ++ "x") (0 - 1) = None))
  /\ commandListener (richTextEditor 2) "outdentContent" JSUndefined
       Examples.afterX = Done true Examples.afterX.
Proof.
  split.
  - apply (outdentContent_without_tab (richTextEditor 2) JSUndefined
             Examples.atStart (Examples.caret 2%N 0 text) 1%N
             eq_refl eq_refl eq_refl).
    left. reflexivity.
  - apply (outdentContent_without_tab (richTextEditor 2) JSUndefined
             Examples.afterX (Examples.caret 2%N 2 text) 1%N
             eq_refl eq_refl eq_refl).
    right. vm_compute. discriminate.
Defined.

(** ** Delegation through [execCommand] *)

(** C4, as claimed, at a concrete input.  The host has a handler above
    the listener that drops the selection on [insertText] and declines.
    With the caret in a code block, the re-dispatched [insertText]
    comes back unhandled ([false]), and [indentContent] still returns
    handled ([true]): the delegate's result is not passed on. *)
Lemma indentContent_drops_delegate_result :
  exists w',
    Examples.hostedEditor 2 "insertText" (JSString tab) Examples.afterTab
    = Done false w'
    /\ commandListener (Examples.hostedEditor 2) "indentContent" JSUndefined
         Examples.afterTab
       = Done true w'
    /\ commandListener (Examples.hostedEditor 2) "indentContent" JSUndefined
         Examples.afterTab
       <> Examples.hostedEditor 2 "insertText" (JSString tab)
            Examples.afterTab.
Proof.
  eexists. split; [vm_compute; reflexivity|].
  split; [vm_compute; reflexivity|].
  vm_compute. discriminate.
Qed.

(** C4, amended.  The four key commands return exactly what their
    delegate returns (its handled flag, its world, or its fault), the
    delegate being run after the event's default was prevented:
    [keyBackspace] and [keyDelete] delegate to [deleteCharacter],
    [keyEnter] to [insertLineBreak] or [insertParagraph], [keyTab] to
    [outdentContent] or [indentContent].  [indentContent] in a block that
    takes literal tabs delegates to [insertText] and passes on the
    delegate's world or fault, but not its handled flag: it returns
    [true]. *)
Theorem delegate_result_propagation `{Collaborators} (execCommand : Dispatch)
    (event : KeyboardEvent) (payload : JSValue) (w : World)
    (selection : Selection) :
  _selection (editorState w) = Some selection ->
  let prevented :=
    withDefaultPrevented w (eventId event :: defaultPrevented w) in
  commandListener execCommand "keyBackspace" (JSKeyboardEvent event) w
  = execCommand "deleteCharacter" (JSBoolean true) prevented
  /\ commandListener execCommand "keyDelete" (JSKeyboardEvent event) w
     = execCommand "deleteCharacter" (JSBoolean false) prevented
  /\ commandListener execCommand "keyEnter" (JSKeyboardEvent event) w
     = execCommand
         (if shiftKey event then "insertLineBreak" else "insertParagraph")
         JSUndefined prevented
  /\ commandListener execCommand "keyTab" (JSKeyboardEvent event) w
     = execCommand
         (if shiftKey event then "outdentContent" else "indentContent")
         JSUndefined prevented
  /\ (forall parentBlock,
        parentBlockOf (anchor selection) w = Done parentBlock w ->
        canInsertTab parentBlock w = Done true w ->
        commandListener execCommand "indentContent" payload w
        = thenHandled (execCommand "insertText" (JSString tab) w)).
Proof.
  intros Hsel prevented.
  repeat split.
  - unfold commandListener, bind, getSelection, read. rewrite Hsel. reflexivity.
  - unfold commandListener, bind, getSelection, read. rewrite Hsel. reflexivity.
  - unfold commandListener, bind, getSelection, read. rewrite Hsel. simpl.
    destruct (shiftKey event); reflexivity.
  - unfold commandListener, bind, getSelection, read. rewrite Hsel. simpl.
    destruct (shiftKey event); reflexivity.
  - intros parentBlock Hblock Htab.
    rewrite (commandListener_indentContent_resolved _ _ _ _ _ Hsel Hblock).
    apply indentBlock_tab, Htab.
Qed.

Lemma delegate_result_propagation_witness :
  commandListener (richTextEditor 3) "keyTab"
    (JSKeyboardEvent Examples.plainKey) Examples.inParagraph
  = richTextEditor 3 "indentContent" JSUndefined
      (withDefaultPrevented Examples.inParagraph [2%N]).
Proof.
  destruct (delegate_result_propagation (richTextEditor 3) Examples.plainKey
              JSUndefined Examples.inParagraph (Examples.caret 4%N 1 text)
              eq_refl) as (_ & _ & _ & Htab & _).
  exact Htab.
Defined.

(** ** Resolving the enclosing block *)




(** ** [keyEnter] against the commands it stands for *)

(** C6.  Take an editor with this listener installed and an active
    selection, and a selection object whose [insertLineBreak] treats a
    missing [selectStart] as [false] (it only tests the flag).  Then
    [keyEnter] with shift held leaves the same document state and handled
    flag (or the same fault) as dispatching [insertLineBreak] with
    [false], and [keyEnter] without shift the same as dispatching
    [insertParagraph]; two levels of nesting are enough for the dispatch
    to finish. *)
Theorem keyEnter_model_effect `{Collaborators} (event : KeyboardEvent)
    (w : World) (selection : Selection) (fuel : nat) :
  (forall sel s,
     insertLineBreak sel JSUndefined s = insertLineBreak sel (JSBoolean false) s) ->
  _selection (editorState w) = Some selection ->
  let keyEnter :=
    modelEffect
      (richTextEditor (S (S fuel)) "keyEnter" (JSKeyboardEvent event) w) in
  keyEnter <> Unfinished
  /\ (shiftKey event = true ->
      keyEnter
      = modelEffect
          (richTextEditor (S (S fuel)) "insertLineBreak" (JSBoolean false) w))
  /\ (shiftKey event = false ->
      keyEnter
      = modelEffect
          (richTextEditor (S (S fuel)) "insertParagraph" JSUndefined w)).
Proof.
  intros Hflag Hsel keyEnter. subst keyEnter.
  rewrite !richTextEditor_step.
  set (prevented := withDefaultPrevented w (eventId event :: defaultPrevented w)).
  assert (Hkey :
    commandListener (richTextEditor (S fuel)) "keyEnter" (JSKeyboardEvent event) w
    = commandListener (richTextEditor fuel)
        (if shiftKey event then "insertLineBreak" else "insertParagraph")
        JSUndefined prevented).
  { unfold commandListener at 1. unfold bind, getSelection, read.
    rewrite Hsel. simpl. destruct (shiftKey event); simpl;
      apply richTextEditor_step. }
  rewrite Hkey.
  assert (Hbreak : forall (exec exec' : Dispatch) payload,
    payload = JSUndefined \/ payload = JSBoolean false ->
    modelEffect (commandListener exec "insertLineBreak" payload prevented)
    = modelEffect
        (commandListener exec' "insertLineBreak" (JSBoolean false) w)).
  { intros exec exec' payload Hpayload.
    unfold commandListener, bind, getSelection, read, call. simpl.
    rewrite Hsel.
    replace (insertLineBreak selection payload (editorState w))
      with (insertLineBreak selection (JSBoolean false) (editorState w))
      by (destruct Hpayload as [-> | ->]; [symmetry; apply Hflag | reflexivity]).
    simpl.
    destruct (insertLineBreak selection (JSBoolean false) (editorState w));
      reflexivity. }
  assert (Hpara : forall (exec exec' : Dispatch),
    modelEffect (commandListener exec "insertParagraph" JSUndefined prevented)
    = modelEffect (commandListener exec' "insertParagraph" JSUndefined w)).
  { intros exec exec'.
    unfold commandListener, bind, getSelection, read, call. simpl.
    rewrite Hsel. simpl.
    destruct (insertParagraph selection (editorState w)); reflexivity. }
  split; [|split].
  - destruct (shiftKey event).
    + rewrite (Hbreak _ (richTextEditor fuel) JSUndefined) by (left; reflexivity).
      unfold commandListener, bind, getSelection, read, call.
      rewrite Hsel. simpl.
      destruct (insertLineBreak selection (JSBoolean false) (editorState w));
        discriminate.
    + rewrite (Hpara _ (richTextEditor fuel)).
      unfold commandListener, bind, getSelection, read, call.
      rewrite Hsel. simpl.
      destruct (insertParagraph selection (editorState w)); discriminate.
  - intros ->. apply Hbreak. left. reflexivity.
  - intros ->. apply Hpara.
Qed.

Lemma keyEnter_model_effect_witness :
  modelEffect
    (richTextEditor 2 "keyEnter" (JSKeyboardEvent Examples.shiftEnter)
       Examples.afterX)
  = modelEffect
      (richTextEditor 2 "insertLineBreak" (JSBoolean false) Examples.afterX)
  /\ modelEffect
       (richTextEditor 2 "keyEnter" (JSKeyboardEvent Examples.plainKey)
          Examples.afterX)
     = modelEffect
         (richTextEditor 2 "insertParagraph" JSUndefined Examples.afterX).
Proof.
  split.
  - refine (proj1 (proj2 (keyEnter_model_effect Examples.shiftEnter
              Examples.afterX (Examples.caret 2%N 2 text) 0 _ eq_refl)) eq_refl).
    intros sel s. reflexivity.
  - refine (proj2 (proj2 (keyEnter_model_effect Examples.plainKey
              Examples.afterX (Examples.caret 2%N 2 text) 0 _ eq_refl)) eq_refl).
    intros sel s. reflexivity.
Defined.

(** ** Event bindings *)

(** C9.  The bindings are fixed by the one capability flag.  With native
    [beforeinput] support the table is the ten common bindings followed
    by [beforeinput], bound once to [onBeforeInput], and neither the
    [drop] event nor the drop polyfill is bound.  Without it the table
    ends with [drop] bound to [onDropPolyfill], and neither
    [beforeinput] nor [onBeforeInput] is bound. *)
Theorem events_by_capability :
  (events true = (eventsLiteral ++ [("beforeinput", onBeforeInput)])%list
   /\ handlersOf "beforeinput" (events true) = [onBeforeInput]
   /\ handlersOf "drop" (events true) = []
   /\ ~ In onDropPolyfill (map snd (events true)))
  /\ (events false = (eventsLiteral ++ [("drop", onDropPolyfill)])%list
      /\ handlersOf "drop" (events false) = [onDropPolyfill]
      /\ handlersOf "beforeinput" (events false) = []
      /\ ~ In onBeforeInput (map snd (events false))).
Proof.
  repeat split; try reflexivity.
  - simpl. intros Hin. repeat (destruct Hin as [Hin|Hin]; [discriminate|]).
    exact Hin.
  - simpl. intros Hin. repeat (destruct Hin as [Hin|Hin]; [discriminate|]).
    exact Hin.
Qed.

(** ** Lifecycle *)

(** [initParagraph] on a root [r] with a fresh key counter: the new
    paragraph takes the counter's key, becomes the last child of the
    root, and is selected when [shouldSelectParagraph] says so. *)
Lemma initParagraph_run w root r :
  _nodeMap (editorState w) !! root = Some r ->
  _nodeMap (editorState w) !! _keyCounter (editorState w) = None ->
  let paragraph := _keyCounter (editorState w) in
  initParagraph root w
  = Done tt
      (withEditorState w
         {| _nodeMap :=
              <[root := withChildren r (__children r ++ [paragraph])]>
                (<[paragraph := emptyParagraph (Some root)]>
                   (_nodeMap (editorState w)));
            _selection :=
              if bool_decide (_selection (editorState w) <> None)
                 || (bool_decide (activeElement w <> None)
                     && bool_decide (activeElement w = rootElement w))
              then Some (insideAtStart paragraph)
              else _selection (editorState w);
            _keyCounter := N.succ paragraph |}).
Proof.
  intros Hroot Hfresh paragraph.
  assert (Hne : root <> paragraph)
    by (intros E; subst paragraph; rewrite E in Hroot; congruence).
  unfold initParagraph, createParagraphNode, append.
  unfold bind, read, call, ret, getLatest, withEditorState, writeNode. simpl.
  fold paragraph.
  rewrite lookup_insert_eq. simpl.
  rewrite insert_insert_eq.
  rewrite lookup_insert_ne by (intros E; apply Hne; symmetry; exact E).
  rewrite Hroot. simpl.
  unfold shouldSelectParagraph, bind, read, readWorld, getSelection, ret. simpl.
  destruct (bool_decide (_selection (editorState w) <> None)
            || (bool_decide (activeElement w <> None)
                && bool_decide (activeElement w = rootElement w))).
  - unfold select, bind, getLatest, call, ret, withEditorState. simpl.
    rewrite lookup_insert_ne by exact Hne.
    rewrite lookup_insert_eq. reflexivity.
  - reflexivity.
Qed.

Lemma detach_fields child s :
  _selection (detach child s) = _selection s
  /\ _keyCounter (detach child s) = _keyCounter s.
Proof.
  unfold detach. destruct (_nodeMap s !! child); split; reflexivity.
Qed.

Lemma detach_lookup_None child s node :
  _nodeMap s !! node = None -> _nodeMap (detach child s) !! node = None.
Proof.
  intros Hnone. unfold detach.
  destruct (_nodeMap s !! child) as [c|] eqn:Hc; [|exact Hnone].
  simpl. rewrite lookup_insert_ne; [exact Hnone|]. intros ->. congruence.
Qed.

Lemma detach_lookup_Some child s node :
  is_Some (_nodeMap s !! node) -> is_Some (_nodeMap (detach child s) !! node).
Proof.
  intros Hsome. unfold detach.
  destruct (_nodeMap s !! child) as [c|] eqn:Hc; [|exact Hsome].
  simpl. destruct (decide (child = node)) as [->|Hne].
  - rewrite lookup_insert_eq. eexists. reflexivity.
  - rewrite lookup_insert_ne by exact Hne. exact Hsome.
Qed.

(** Detaching a list of children keeps the selection, the key counter
    and the set of keys of the node map. *)
Lemma detach_all children s :
  _selection (foldr detach s children) = _selection s
  /\ _keyCounter (foldr detach s children) = _keyCounter s
  /\ (forall node, _nodeMap s !! node = None ->
                   _nodeMap (foldr detach s children) !! node = None)
  /\ (forall node, is_Some (_nodeMap s !! node) ->
                   is_Some (_nodeMap (foldr detach s children) !! node)).
Proof.
  induction children as [|child children IH]; simpl.
  - repeat split; auto.
  - destruct IH as (Hsel & Hkey & Hnone & Hsome).
    destruct (detach_fields child (foldr detach s children)) as [Hs Hk].
    repeat split.
    + rewrite Hs. exact Hsel.
    + rewrite Hk. exact Hkey.
    + intros node Hn. apply detach_lookup_None, Hnone, Hn.
    + intros node Hn. apply detach_lookup_Some, Hsome, Hn.
Qed.

(** [clear] on an existing node: its children are detached and its list
    of children becomes empty; no key is added to the node map. *)
Lemma clear_run w node n :
  _nodeMap (editorState w) !! node = Some n ->
  exists n',
    _nodeMap (foldr detach (editorState w) (__children n)) !! node = Some n'
    /\ clear node w
       = Done tt
           (withEditorState w
              {| _nodeMap :=
                   <[node := withChildren n' []]>
                     (_nodeMap (foldr detach (editorState w) (__children n)));
                 _selection := _selection (editorState w);
                 _keyCounter := _keyCounter (editorState w) |}).
Proof.
  intros Hn.
  destruct (detach_all (__children n) (editorState w))
    as (Hsel & Hkey & _ & Hsome).
  destruct (Hsome node (mk_is_Some _ _ Hn)) as [n' Hn'].
  exists n'. split; [exact Hn'|].
  unfold clear, bind, call, getLatest, withEditorState, writeNode. simpl.
  rewrite Hn. simpl. rewrite Hn'. simpl. rewrite Hsel, Hkey. reflexivity.
Qed.

(** [initEditor] on a root without children: one [initParagraph], then
    the commit. *)
Lemma initEditor_empty w root :
  _nodeMap (editorState w) !! rootKey = Some root ->
  __children root = [] ->
  _nodeMap (editorState w) !! _keyCounter (editorState w) = None ->
  exists w',
    initParagraph rootKey (withDebugLog w (debugLog w ++ ["initEditor"]))
    = Done tt w'
    /\ initEditor w
       = Done tt (withUpdates w' (updates w' ++ [Committed (editorState w')])).
Proof.
  intros Hroot Hempty Hfresh.
  eexists. split.
  - apply (initParagraph_run (withDebugLog w _) rootKey root Hroot Hfresh).
  - unfold initEditor, update.
    unfold log, getRoot, getFirstChild. unfold bind at 1 2 3 4.
    rewrite (getLatest_lookup rootKey (withDebugLog w _) root Hroot).
    unfold ret at 1. unfold bind at 1.
    rewrite (getLatest_lookup rootKey (withDebugLog w _) root Hroot).
    unfold ret at 1.
    replace (head (__children root)) with (@None NodeKey)
      by (rewrite Hempty; reflexivity).
    cbv iota.
    rewrite (initParagraph_run (withDebugLog w _) rootKey root Hroot Hfresh).
    reflexivity.
Qed.



(** C8, as claimed, at a concrete input.  Mounting with the initialize
    flag on an empty root, while there is no selection and the editing
    surface does not hold input focus: the root gets its paragraph, but
    the selection stays [null]; it is not anchored in the paragraph. *)
Lemma mount_unfocused_leaves_selection_null :
  exists w',
    useRichTextSetup true Examples.blank = Done tt w'
    /\ singleEmptyParagraph 1%N (editorState w')
    /\ _selection (editorState w') = None
    /\ _selection (editorState w') <> Some (insideAtStart 1%N).
Proof.
  eexists. split; [vm_compute; reflexivity|].
  split; [|split].
  - split; [eexists; split|]; vm_compute; reflexivity.
  - reflexivity.
  - discriminate.
Qed.

(** C8, amended.  Mounting with the initialize flag on a root with no
    children (key counter fresh) leaves the root with exactly one child,
    an empty paragraph.  The selection is anchored inside that paragraph
    at offset 0 when a selection already existed or the editing surface
    held input focus; when neither holds, the selection stays [null]. *)
Theorem mount_initializes_document (w : World) (root : OutlineNode) :
  _nodeMap (editorState w) !! rootKey = Some root ->
  __children root = [] ->
  _nodeMap (editorState w) !! _keyCounter (editorState w) = None ->
  let paragraph := _keyCounter (editorState w) in
  exists w',
    useRichTextSetup true w = Done tt w'
    /\ singleEmptyParagraph paragraph (editorState w')
    /\ (_selection (editorState w) <> None
        \/ (activeElement w <> None /\ activeElement w = rootElement w) ->
        _selection (editorState w') = Some (insideAtStart paragraph))
    /\ (_selection (editorState w) = None ->
        activeElement w = None \/ activeElement w <> rootElement w ->
        _selection (editorState w') = None).
Proof.
  intros Hroot Hempty Hfresh paragraph.
  assert (Hne : rootKey <> paragraph)
    by (intros E; subst paragraph; rewrite E in Hroot; congruence).
  set (mounted :=
         withRegistrations
           (withRegistrations
              (withRegistrations w
                 (registeredNodes w ++
                  [HeadingNode; ListNode; QuoteNode; CodeNode; ParagraphNode;
                   ListItemNode])
                 (listeners w))
              (registeredNodes w ++
               [HeadingNode; ListNode; QuoteNode; CodeNode; ParagraphNode;
                ListItemNode])
              (listeners w ++ [mkListener "textmutation" OnTextMutation None]))
           (registeredNodes w ++
            [HeadingNode; ListNode; QuoteNode; CodeNode; ParagraphNode;
             ListItemNode])
           ((listeners w ++ [mkListener "textmutation" OnTextMutation None]) ++
            [mkListener "command" CommandListener (Some EditorPriority)])).
  assert (Hmount : useRichTextSetup true w = initEditor mounted)
    by reflexivity.
  destruct (initEditor_empty mounted root Hroot Hempty Hfresh)
    as (w1 & Hparagraph & Hinit).
  rewrite (initParagraph_run (withDebugLog mounted _) rootKey root Hroot Hfresh)
    in Hparagraph.
  injection Hparagraph as <-.
  rewrite Hmount, Hinit.
  eexists. split; [reflexivity|].
  unfold singleEmptyParagraph, withUpdates, withEditorState, withDebugLog,
    withRegistrations.
  cbn [editorState _nodeMap _selection _keyCounter activeElement rootElement].
  fold paragraph.
  split; [split|split].
  - eexists. split; [apply lookup_insert_eq|]. simpl. rewrite Hempty.
    reflexivity.
  - rewrite lookup_insert_ne by exact Hne. apply lookup_insert_eq.
  - intros Hvisible.
    replace (bool_decide (_selection (editorState w) <> None)
             || (bool_decide (activeElement w <> None)
                 && bool_decide (activeElement w = rootElement w)))
      with true; [reflexivity|].
    symmetry. destruct Hvisible as [Hsel|[Hactive Hfocus]].
    + rewrite (bool_decide_eq_true_2 _ Hsel). reflexivity.
    + rewrite (bool_decide_eq_true_2 _ Hactive).
      rewrite (bool_decide_eq_true_2 _ Hfocus). apply orb_true_r.
  - intros Hsel Hfocus.
    replace (bool_decide (_selection (editorState w) <> None)
             || (bool_decide (activeElement w <> None)
                 && bool_decide (activeElement w = rootElement w)))
      with false; [exact Hsel|].
    symmetry. apply orb_false_iff. split.
    + apply bool_decide_eq_false_2. intros Hn. apply Hn, Hsel.
    + apply andb_false_iff. destruct Hfocus as [Hnone|Hother].
      * left. apply bool_decide_eq_false_2. intros Hn. apply Hn, Hnone.
      * right. apply bool_decide_eq_false_2. exact Hother.
Qed.

Lemma mount_initializes_document_witness :
  exists w',
    useRichTextSetup true Examples.blankFocused = Done tt w'
    /\ singleEmptyParagraph 1%N (editorState w')
    /\ _selection (editorState w') = Some (insideAtStart 1%N).
Proof.
  destruct (mount_initializes_document Examples.blankFocused
              (Examples.node RootNode None [] 0 "") eq_refl eq_refl eq_refl)
    as (w' & Hrun & Hsingle & Hselect & _).
  exists w'. split; [exact Hrun|]. split; [exact Hsingle|].
  apply Hselect. right. split; [discriminate | reflexivity].
Defined.

(** * Further properties of the listener *)

Ltac name_in_list := simpl; repeat ((left; reflexivity) || right).

(** X1.  A command name the switch has no case for is unhandled: the
    listener returns [false] and leaves the world as it was, whether or
    not there is a selection, and so does the editor with this listener
    alone. *)
Theorem unknown_command_unhandled `{Collaborators} (execCommand : Dispatch)
    (commandType : string) (payload : JSValue) (w : World) (fuel : nat) :
  ~ In commandType commandNames ->
  commandListener execCommand commandType payload w = Done false w
  /\ richTextEditor (S fuel) commandType payload w = Done false w.
Proof.
  intros Hunknown.
  assert (Hlistener : forall exec : Dispatch,
            commandListener exec commandType payload w = Done false w).
  { intros exec. unfold commandListener, bind, getSelection, read.
    destruct (_selection (editorState w)) as [selection|]; [|reflexivity].
    repeat match goal with
    | |- context [String.eqb commandType ?name] =>
        destruct (String.eqb_spec commandType name) as [Heq|_];
        [exfalso; apply Hunknown; rewrite Heq; name_in_list | cbv iota]
    end.
    reflexivity. }
  split; [apply Hlistener|].
  rewrite richTextEditor_step. apply Hlistener.
Qed.

Lemma unknown_command_unhandled_witness :
  commandListener (richTextEditor 2) "undo" JSUndefined Examples.afterTab
  = Done false Examples.afterTab
  /\ richTextEditor 1 "undo" JSUndefined Examples.afterTab
     = Done false Examples.afterTab.
Proof.
  apply (unknown_command_unhandled (richTextEditor 2) "undo" JSUndefined
           Examples.afterTab 0).
  simpl. intros Hin.
  repeat (destruct Hin as [Hin|Hin]; [discriminate|]). exact Hin.
Defined.

(** ** Which commands can come back unhandled *)

Ltac switch_on commandType :=
  repeat match goal with
  | |- context [String.eqb commandType ?name] =>
      destruct (String.eqb_spec commandType name) as [->|?]; cbv iota
  end.

Ltac not_in_list Hin :=
  solve [ exfalso; simpl in Hin;
          repeat (destruct Hin as [Hin|Hin]; [congruence|]); exact Hin ].

Lemma handled_ret_true w (b : bool) w' : ret true w = Done b w' -> b = true.
Proof. intros [= <- _]. reflexivity. Qed.

Lemma handled_bind {A} (c : M A) (k : A -> M bool) w (b : bool) w' :
  (forall a w1, k a w1 = Done b w' -> b = true) ->
  bind c k w = Done b w' -> b = true.
Proof.
  intros Hk. unfold bind. destruct (c w) as [a w1| |]; try discriminate.
  apply Hk.
Qed.

Ltac handled :=
  cbv beta zeta;
  repeat first
    [ apply handled_ret_true
    | apply handled_bind; intros ? ?; cbv beta
    | progress unfold indentBlock, outdentBlock ].

(** X2.  With an active selection, the eleven editing commands (the nine
    that call a selection or element method, and [indentContent] and
    [outdentContent]) never come back unhandled: when the listener
    returns at all, it returns [true], whatever the collaborators and
    the re-dispatched commands did. *)
Theorem editing_commands_never_unhandled `{Collaborators}
    (execCommand : Dispatch) (commandType : string) (payload : JSValue)
    (w : World) (selection : Selection) (handled : bool) (w' : World) :
  _selection (editorState w) = Some selection ->
  In commandType editingCommands ->
  commandListener execCommand commandType payload w = Done handled w' ->
  handled = true.
Proof.
  intros Hsel Hin.
  unfold commandListener. unfold bind at 1. unfold getSelection, read.
  rewrite Hsel.
  switch_on commandType; first [ not_in_list Hin | handled ].
Qed.

Lemma editing_commands_never_unhandled_witness :
  match commandListener (Examples.hostedEditor 2) "indentContent" JSUndefined
          Examples.afterTab with
  | Done handled _ => handled = true
  | _ => False
  end.
Proof.
  destruct (commandListener (Examples.hostedEditor 2) "indentContent"
              JSUndefined Examples.afterTab) as [handled w'| |] eqn:Hrun.
  - apply (editing_commands_never_unhandled (Examples.hostedEditor 2)
             "indentContent" JSUndefined Examples.afterTab
             (Examples.caret 2%N 1 text) handled w' eq_refl);
      [|exact Hrun].
    unfold editingCommands, directCommands. simpl.
    repeat ((left; reflexivity) || right).
  - vm_compute in Hrun. discriminate.
  - vm_compute in Hrun. discriminate.
Defined.

(** ** Nesting of re-dispatched commands *)

Lemma bind_ext {A B} (c : M A) (k k' : A -> M B) w :
  (forall a w1, k a w1 = k' a w1) -> bind c k w = bind c k' w.
Proof.
  intros Hk. unfold bind. destruct (c w); [apply Hk | reflexivity..].
Qed.

Lemma bind_ext_l {A B} (c c' : M A) (k : A -> M B) w :
  c w = c' w -> bind c k w = bind c' k w.
Proof. intros Hc. unfold bind. rewrite Hc. reflexivity. Qed.

Ltac smaller_depth :=
  try match goal with
      | |- context [truthy ?v] => destruct (truthy v)
      end;
  vm_compute; lia.

Ltac agree Hagree :=
  cbv beta zeta;
  repeat first
    [ reflexivity
    | apply Hagree; smaller_depth
    | apply bind_ext; intros ? ?; cbv beta
    | apply bind_ext_l
    | progress unfold indentBlock, outdentBlock
    | match goal with
      | |- (if ?b then _ else _) _ = (if ?b then _ else _) _ => destruct b
      | |- bind (if ?b then _ else _) _ _ = bind (if ?b then _ else _) _ _ =>
          destruct b
      end ].

(** A case consults [execCommand] only for commands of smaller
    delegation depth. *)
Lemma commandListener_agree `{Collaborators} (exec exec' : Dispatch)
    commandType payload w :
  (forall t p w1,
     (delegationDepth t < delegationDepth commandType)%nat ->
     exec t p w1 = exec' t p w1) ->
  commandListener exec commandType payload w
  = commandListener exec' commandType payload w.
Proof.
  intros Hagree. unfold commandListener.
  apply bind_ext. intros [selection|] w1; [|reflexivity].
  revert Hagree. switch_on commandType; intros Hagree; agree Hagree.
Qed.

Lemma finishes_ret {A} (a : A) : finishes (ret a).
Proof. intros w. discriminate. Qed.

Lemma finishes_bind {A B} (c : M A) (k : A -> M B) :
  finishes c -> (forall a, finishes (k a)) -> finishes (bind c k).
Proof.
  intros Hc Hk w. unfold bind. specialize (Hc w).
  destruct (c w) as [a w1| |]; [apply Hk | discriminate | contradiction].
Qed.

Lemma finishes_call f : finishes (call f).
Proof. intros w. unfold call. destruct (f (editorState w)); discriminate. Qed.

Lemma finishes_read {A} (f : EditorState -> A) : finishes (read f).
Proof. intros w. discriminate. Qed.

Lemma finishes_throw {A} e : finishes (@throw A e).
Proof. intros w. discriminate. Qed.

Lemma finishes_getLatest node : finishes (getLatest node).
Proof.
  intros w. unfold getLatest.
  destruct (_nodeMap (editorState w) !! node); discriminate.
Qed.

Lemma finishes_preventDefault event : finishes (preventDefault event).
Proof. intros w. destruct event; discriminate. Qed.

Lemma finishes_getShiftKey event : finishes (getShiftKey event).
Proof. intros w. destruct event; discriminate. Qed.

Ltac finish Hexec :=
  cbv beta zeta;
  repeat first
    [ apply finishes_ret
    | apply finishes_call
    | apply finishes_read
    | apply finishes_throw
    | apply finishes_getLatest
    | apply finishes_preventDefault
    | apply finishes_getShiftKey
    | apply Hexec; smaller_depth
    | apply finishes_bind; [|intros ?; cbv beta]
    | progress unfold indentBlock, outdentBlock, parentBlockOf, getNode,
        getParentOrThrow, isElementNode, canInsertTab, getIndent, setIndent,
        setFormat
    | match goal with
      | |- finishes (if ?b then _ else _) => destruct b
      | |- finishes (match ?x with _ => _ end) => destruct x
      | |- finishes (let _ := _ in _) => cbv zeta
      end ].

(** A case runs out of budget only if a re-dispatched command of
    smaller depth does. *)
Lemma commandListener_finishes `{Collaborators} (exec : Dispatch)
    commandType payload :
  (forall t p,
     (delegationDepth t < delegationDepth commandType)%nat ->
     finishes (exec t p)) ->
  finishes (commandListener exec commandType payload).
Proof.
  intros Hexec. unfold commandListener.
  apply finishes_bind; [apply finishes_read|].
  intros [selection|]; [|apply finishes_ret].
  revert Hexec. switch_on commandType; intros Hexec; finish Hexec.
Qed.

Lemma delegationDepth_bound commandType : (delegationDepth commandType < 3)%nat.
Proof.
  unfold delegationDepth.
  destruct (String.eqb commandType "keyTab"); [lia|].
  destruct (_ || _); lia.
Qed.

Lemma richTextEditor_stable `{Collaborators} n :
  forall m commandType payload w,
    (delegationDepth commandType < n)%nat ->
    (delegationDepth commandType < m)%nat ->
    richTextEditor n commandType payload w
    = richTextEditor m commandType payload w.
Proof.
  induction n as [|n IH]; intros m commandType payload w Hn Hm; [lia|].
  destruct m as [|m]; [lia|].
  rewrite !richTextEditor_step. apply commandListener_agree.
  intros t p w1 Hlt. apply IH; lia.
Qed.

Lemma richTextEditor_finishes `{Collaborators} n :
  forall commandType payload,
    (delegationDepth commandType < n)%nat ->
    finishes (richTextEditor n commandType payload).
Proof.
  induction n as [|n IH]; intros commandType payload Hn; [lia|].
  intros w. rewrite richTextEditor_step. revert w.
  apply commandListener_finishes. intros t p Hlt. apply IH. lia.
Qed.

(** X3.  With this listener alone installed, re-dispatch never loops: a
    command whose case nests [delegationDepth] re-dispatches finishes
    within a budget of one more than that (three at most, reached by
    [keyTab]), and a larger budget changes nothing in the outcome. *)
Theorem delegation_terminates `{Collaborators} (commandType : string)
    (payload : JSValue) (w : World) (fuel : nat) :
  (delegationDepth commandType <= 2)%nat
  /\ richTextEditor (S (delegationDepth commandType)) commandType payload w
     <> OutOfFuel
  /\ richTextEditor (S (delegationDepth commandType) + fuel) commandType
       payload w
     = richTextEditor (S (delegationDepth commandType)) commandType payload w
  /\ richTextEditor (3 + fuel) commandType payload w
     = richTextEditor 3 commandType payload w.
Proof.
  pose proof (delegationDepth_bound commandType) as Hbound.
  split; [lia|]. split; [|split].
  - apply richTextEditor_finishes. lia.
  - apply richTextEditor_stable; lia.
  - apply richTextEditor_stable; lia.
Qed.

(** ** The listener reads the document only *)

Lemma modelOnly_ret {A} (a : A) : modelOnly (ret a).
Proof. intros w1 w2 Hs. simpl. split; [reflexivity | exact Hs]. Qed.

Lemma modelOnly_bind {A B} (c : M A) (k : A -> M B) :
  modelOnly c -> (forall a, modelOnly (k a)) -> modelOnly (bind c k).
Proof.
  intros Hc Hk w1 w2 Hs. unfold bind. specialize (Hc w1 w2 Hs).
  destruct (c w1) as [a1 v1| |], (c w2) as [a2 v2| |];
    simpl in Hc; try contradiction; try discriminate.
  - destruct Hc as [-> Hv]. apply Hk, Hv.
  - exact Hc.
  - exact I.
Qed.

Lemma modelOnly_call f : modelOnly (call f).
Proof.
  intros w1 w2 Hs. unfold call. rewrite Hs.
  destruct (f (editorState w2)); simpl; auto.
Qed.

Lemma modelOnly_read {A} (f : EditorState -> A) : modelOnly (read f).
Proof. intros w1 w2 Hs. unfold read. simpl. rewrite Hs. auto. Qed.

Lemma modelOnly_throw {A} e : modelOnly (@throw A e).
Proof. intros w1 w2 Hs. reflexivity. Qed.

Lemma modelOnly_getLatest node : modelOnly (getLatest node).
Proof.
  intros w1 w2 Hs. unfold getLatest. rewrite Hs.
  destruct (_nodeMap (editorState w2) !! node); simpl; auto.
Qed.

Lemma modelOnly_preventDefault event : modelOnly (preventDefault event).
Proof. intros w1 w2 Hs. destruct event; simpl; auto. Qed.

Lemma modelOnly_getShiftKey event : modelOnly (getShiftKey event).
Proof. intros w1 w2 Hs. destruct event; simpl; auto. Qed.

Ltac model_only Hexec :=
  cbv beta zeta;
  repeat first
    [ apply modelOnly_ret
    | apply modelOnly_call
    | apply modelOnly_read
    | apply modelOnly_throw
    | apply modelOnly_getLatest
    | apply modelOnly_preventDefault
    | apply modelOnly_getShiftKey
    | apply Hexec
    | apply modelOnly_bind; [|intros ?; cbv beta]
    | progress unfold indentBlock, outdentBlock, parentBlockOf, getNode,
        getParentOrThrow, isElementNode, canInsertTab, getIndent, setIndent,
        setFormat, getSelection
    | match goal with
      | |- modelOnly (if ?b then _ else _) => destruct b
      | |- modelOnly (match ?x with _ => _ end) => destruct x
      | |- modelOnly (let _ := _ in _) => cbv zeta
      end ].

Lemma commandListener_modelOnly `{Collaborators} (exec : Dispatch)
    commandType payload :
  (forall t p, modelOnly (exec t p)) ->
  modelOnly (commandListener exec commandType payload).
Proof. intros Hexec. unfold commandListener. model_only Hexec. Qed.

Lemma richTextEditor_modelOnly `{Collaborators} fuel :
  forall commandType payload,
    modelOnly (richTextEditor fuel commandType payload).
Proof.
  induction fuel as [|fuel IH]; intros commandType payload w1 w2 Hs.
  - exact I.
  - rewrite !richTextEditor_step.
    apply commandListener_modelOnly; [exact IH | exact Hs].
Qed.

Lemma sameModel_modelEffect (o1 o2 : Outcome bool) :
  sameModel o1 o2 -> modelEffect o1 = modelEffect o2.
Proof.
  destruct o1 as [a1 w1| |], o2 as [a2 w2| |]; simpl;
    try contradiction; try discriminate.
  - intros [-> ->]. reflexivity.
  - intros ->. reflexivity.
  - reflexivity.
Qed.



(** ** Key commands against the commands they stand for *)

Lemma keyCommand_delegates `{Collaborators} (exec : Dispatch)
    (event : KeyboardEvent) w selection :
  _selection (editorState w) = Some selection ->
  let prevented :=
    withDefaultPrevented w (eventId event :: defaultPrevented w) in
  commandListener exec "keyBackspace" (JSKeyboardEvent event) w
  = exec "deleteCharacter" (JSBoolean true) prevented
  /\ commandListener exec "keyDelete" (JSKeyboardEvent event) w
     = exec "deleteCharacter" (JSBoolean false) prevented
  /\ commandListener exec "keyTab" (JSKeyboardEvent event) w
     = exec (if shiftKey event then "outdentContent" else "indentContent")
         JSUndefined prevented.
Proof.
  intros Hsel prevented. repeat split.
  - unfold commandListener, bind, getSelection, read. rewrite Hsel. reflexivity.
  - unfold commandListener, bind, getSelection, read. rewrite Hsel. reflexivity.
  - unfold commandListener, bind, getSelection, read. rewrite Hsel. simpl.
    destruct (shiftKey event); reflexivity.
Qed.

(** X5.  With this listener alone installed and an active selection,
    [keyTab] does to the document exactly what [indentContent] does when
    shift is not held and what [outdentContent] does when it is (same
    handled flag, same document state, same fault); a budget of three
    nested dispatches is enough for it to finish. *)
Theorem keyTab_model_effect `{Collaborators} (event : KeyboardEvent)
    (w : World) (selection : Selection) (fuel : nat) :
  _selection (editorState w) = Some selection ->
  let keyTab :=
    modelEffect
      (richTextEditor (3 + fuel) "keyTab" (JSKeyboardEvent event) w) in
  keyTab <> Unfinished
  /\ keyTab
     = modelEffect
         (richTextEditor (3 + fuel)
            (if shiftKey event then "outdentContent" else "indentContent")
            JSUndefined w).
Proof.
  intros Hsel keyTab. subst keyTab.
  split.
  - intros Hout.
    apply (richTextEditor_finishes (3 + fuel) "keyTab" (JSKeyboardEvent event)
             ltac:(vm_compute; lia) w).
    destruct (richTextEditor (3 + fuel) "keyTab" (JSKeyboardEvent event) w);
      [discriminate | discriminate | reflexivity].
  - change (3 + fuel)%nat with (S (2 + fuel)) at 1.
    rewrite richTextEditor_step.
    destruct (keyCommand_delegates (richTextEditor (2 + fuel)) event w
                selection Hsel) as (_ & _ & ->).
    rewrite (richTextEditor_stable (3 + fuel) (2 + fuel)
               (if shiftKey event then "outdentContent" else "indentContent")
               JSUndefined w)
      by (destruct (shiftKey event); vm_compute; lia).
    apply sameModel_modelEffect, richTextEditor_modelOnly. reflexivity.
Qed.

Lemma keyTab_model_effect_witness :
  modelEffect
    (richTextEditor 3 "keyTab" (JSKeyboardEvent Examples.plainKey)
       Examples.inParagraph)
  = modelEffect
      (richTextEditor 3 "indentContent" JSUndefined Examples.inParagraph).
Proof.
  exact (proj2 (keyTab_model_effect Examples.plainKey Examples.inParagraph
                  (Examples.caret 4%N 1 text) 0 eq_refl)).
Defined.

(** X6.  With this listener alone installed and an active selection,
    [keyBackspace] does to the document exactly what [deleteCharacter]
    with [true] does, and [keyDelete] what [deleteCharacter] with [false]
    does; both finish within two nested dispatches. *)
Theorem keyBackspace_keyDelete_model_effect `{Collaborators}
    (event : KeyboardEvent) (w : World) (selection : Selection) (fuel : nat) :
  _selection (editorState w) = Some selection ->
  (modelEffect
     (richTextEditor (2 + fuel) "keyBackspace" (JSKeyboardEvent event) w)
   = modelEffect
       (richTextEditor (2 + fuel) "deleteCharacter" (JSBoolean true) w)
   /\ modelEffect
        (richTextEditor (2 + fuel) "keyDelete" (JSKeyboardEvent event) w)
      = modelEffect
          (richTextEditor (2 + fuel) "deleteCharacter" (JSBoolean false) w))
  /\ richTextEditor (2 + fuel) "keyBackspace" (JSKeyboardEvent event) w
     <> OutOfFuel
  /\ richTextEditor (2 + fuel) "keyDelete" (JSKeyboardEvent event) w
     <> OutOfFuel.
Proof.
  intros Hsel.
  destruct (keyCommand_delegates (richTextEditor (1 + fuel)) event w
              selection Hsel) as (Hback & Hdel & _).
  split; [split|split].
  - change (2 + fuel)%nat with (S (1 + fuel)) at 1.
    rewrite richTextEditor_step, Hback.
    rewrite (richTextEditor_stable (2 + fuel) (1 + fuel) "deleteCharacter"
               (JSBoolean true) w) by (vm_compute; lia).
    apply sameModel_modelEffect, richTextEditor_modelOnly. reflexivity.
  - change (2 + fuel)%nat with (S (1 + fuel)) at 1.
    rewrite richTextEditor_step, Hdel.
    rewrite (richTextEditor_stable (2 + fuel) (1 + fuel) "deleteCharacter"
               (JSBoolean false) w) by (vm_compute; lia).
    apply sameModel_modelEffect, richTextEditor_modelOnly. reflexivity.
  - apply richTextEditor_finishes. vm_compute. lia.
  - apply richTextEditor_finishes. vm_compute. lia.
Qed.

Lemma keyBackspace_keyDelete_model_effect_witness :
  modelEffect
    (richTextEditor 2 "keyBackspace" (JSKeyboardEvent Examples.plainKey)
       Examples.afterX)
  = modelEffect
      (richTextEditor 2 "deleteCharacter" (JSBoolean true) Examples.afterX).
Proof.
  exact (proj1 (proj1 (keyBackspace_keyDelete_model_effect Examples.plainKey
                         Examples.afterX (Examples.caret 2%N 2 text) 0
                         eq_refl))).
Defined.

(** ** Indent levels *)

Lemma canInsertTab_lookup node w n :
  _nodeMap (editorState w) !! node = Some n ->
  canInsertTab node w = Done (canInsertTabType (__type n)) w.
Proof.
  intros Hn. unfold canInsertTab, bind. rewrite (getLatest_lookup _ _ _ Hn).
  reflexivity.
Qed.

Lemma getIndent_lookup node w n :
  _nodeMap (editorState w) !! node = Some n ->
  getIndent node w = Done (__indent n) w.
Proof.
  intros Hn. unfold getIndent, bind. rewrite (getLatest_lookup _ _ _ Hn).
  reflexivity.
Qed.

(** [indentContent] and [outdentContent] on a block that takes no tab,
    in closed form. *)
Lemma indentContent_run `{Collaborators} (exec : Dispatch) payload w
    selection parentBlock n :
  _selection (editorState w) = Some selection ->
  parentBlockOf (anchor selection) w = Done parentBlock w ->
  _nodeMap (editorState w) !! parentBlock = Some n ->
  canInsertTabType (__type n) = false ->
  commandListener exec "indentContent" payload w
  = Done true
      (if __indent n =? 10 then w
       else withEditorState w
              (writeNode parentBlock (withIndent n (__indent n + 1))
                 (editorState w))).
Proof.
  intros Hsel Hblock Hn Htab.
  rewrite (commandListener_indentContent_resolved _ _ _ _ _ Hsel Hblock).
  rewrite (indentBlock_step _ _ _ (__indent n)).
  - destruct (__indent n =? 10); [reflexivity|].
    unfold bind. rewrite (setIndent_lookup _ _ _ _ Hn). reflexivity.
  - rewrite (canInsertTab_lookup _ _ _ Hn), Htab. reflexivity.
  - apply getIndent_lookup, Hn.
Qed.

Lemma outdentContent_run `{Collaborators} (exec : Dispatch) payload w
    selection parentBlock n :
  _selection (editorState w) = Some selection ->
  parentBlockOf (anchor selection) w = Done parentBlock w ->
  _nodeMap (editorState w) !! parentBlock = Some n ->
  canInsertTabType (__type n) = false ->
  commandListener exec "outdentContent" payload w
  = Done true
      (if __indent n =? 0 then w
       else withEditorState w
              (writeNode parentBlock (withIndent n (__indent n - 1))
                 (editorState w))).
Proof.
  intros Hsel Hblock Hn Htab.
  rewrite (commandListener_outdentContent_resolved _ _ _ _ _ Hsel Hblock).
  rewrite (outdentBlock_step _ _ _ _ _ (__indent n)).
  - destruct (__indent n =? 0); [reflexivity|].
    unfold bind. rewrite (setIndent_lookup _ _ _ _ Hn). reflexivity.
  - rewrite (canInsertTab_lookup _ _ _ Hn), Htab. reflexivity.
  - apply getIndent_lookup, Hn.
Qed.

(** Rewriting a node without touching its parent link changes no
    [getParent] and no resolution of a parent block. *)
Lemma getParent_written node k n n' s :
  _nodeMap s !! k = Some n ->
  __parent n' = __parent n ->
  getParent node (writeNode k n' s) = getParent node s.
Proof.
  intros Hk Hparent. unfold getParent, writeNode. simpl.
  destruct (decide (k = node)) as [->|Hne].
  - rewrite lookup_insert_eq, Hk, Hparent.
    destruct (__parent n) as [p|]; [|reflexivity].
    destruct (decide (node = p)) as [->|Hne].
    + rewrite lookup_insert_eq, Hk. reflexivity.
    + rewrite lookup_insert_ne by exact Hne. reflexivity.
  - rewrite lookup_insert_ne by exact Hne.
    destruct (_nodeMap s !! node) as [x|]; [|reflexivity].
    destruct (__parent x) as [p|]; [|reflexivity].
    destruct (decide (k = p)) as [->|Hne'].
    + rewrite lookup_insert_eq, Hk. reflexivity.
    + rewrite lookup_insert_ne by exact Hne'. reflexivity.
Qed.

Lemma parentBlockOf_closed point w :
  parentBlockOf point w
  = match _nodeMap (editorState w) !! key point with
    | None => Thrown (InvariantViolation "node not found")
    | Some _ =>
        match type point with
        | element => Done (key point) w
        | text =>
            match getParent (key point) (editorState w) with
            | Some p => Done p w
            | None =>
                Thrown (InvariantViolation "Expected node to have a parent.")
            end
        end
    end.
Proof.
  unfold parentBlockOf, getNode, getParentOrThrow, bind, read, ret, getLatest,
    throw.
  destruct (type point);
    destruct (_nodeMap (editorState w) !! key point); try reflexivity.
  destruct (getParent (key point) (editorState w)); reflexivity.
Qed.

Lemma parentBlockOf_written point w k n n' parentBlock :
  _nodeMap (editorState w) !! k = Some n ->
  __parent n' = __parent n ->
  parentBlockOf point w = Done parentBlock w ->
  let w' := withEditorState w (writeNode k n' (editorState w)) in
  parentBlockOf point w' = Done parentBlock w'.
Proof.
  intros Hk Hparent Hblock w'. rewrite parentBlockOf_closed in *.
  subst w'. unfold withEditorState at 1 2. cbn [editorState].
  rewrite (getParent_written _ _ _ _ _ Hk Hparent).
  assert (Hkey : forall x, _nodeMap (editorState w) !! key point = Some x ->
            exists y, _nodeMap (writeNode k n' (editorState w)) !! key point
                      = Some y).
  { intros x Hx. unfold writeNode. simpl.
    destruct (decide (k = key point)) as [->|Hne].
    - rewrite lookup_insert_eq. eauto.
    - rewrite lookup_insert_ne by exact Hne. eauto. }
  destruct (_nodeMap (editorState w) !! key point) as [x|]; [|discriminate].
  destruct (Hkey x eq_refl) as [y ->].
  destruct (type point).
  - destruct (getParent (key point) (editorState w)); [|discriminate].
    injection Hblock as ->. reflexivity.
  - injection Hblock as ->. reflexivity.
Qed.

Lemma withEditorState_same w : withEditorState w (editorState w) = w.
Proof. destruct w. reflexivity. Qed.

Lemma writeNode_twice k n1 n2 s :
  writeNode k n2 (writeNode k n1 s) = writeNode k n2 s.
Proof. unfold writeNode. simpl. rewrite insert_insert_eq. reflexivity. Qed.

Lemma writeNode_same k n s :
  _nodeMap s !! k = Some n -> writeNode k n s = s.
Proof.
  intros Hk. unfold writeNode. rewrite (insert_id _ _ _ Hk).
  destruct s. reflexivity.
Qed.

Lemma withIndent_back n i : withIndent (withIndent n i) (__indent n) = n.
Proof. destruct n. reflexivity. Qed.

(** X7.  On a block that takes no tab, [outdentContent] undoes
    [indentContent] and the other way round, exactly: from indent level
    [n] with [0 <= n < 10], indenting and then outdenting gives back the
    very world it started from, and so does outdenting and then
    indenting from [0 < n <= 10].  At the bounds the pair is not a round
    trip: from 10, indent then outdent ends at 9; from 0, outdent then
    indent ends at 1. *)
Theorem indent_outdent_round_trip `{Collaborators} (exec exec' : Dispatch)
    (payload payload' : JSValue) (w : World) (selection : Selection)
    (parentBlock : NodeKey) (n : OutlineNode) :
  _selection (editorState w) = Some selection ->
  parentBlockOf (anchor selection) w = Done parentBlock w ->
  _nodeMap (editorState w) !! parentBlock = Some n ->
  canInsertTabType (__type n) = false ->
  let indent := commandListener exec "indentContent" payload in
  let outdent := commandListener exec' "outdentContent" payload' in
  (0 <= __indent n < 10 ->
     exists w1, indent w = Done true w1 /\ outdent w1 = Done true w)
  /\ (0 < __indent n <= 10 ->
     exists w1, outdent w = Done true w1 /\ indent w1 = Done true w)
  /\ (__indent n = 10 ->
     exists w1 w2, indent w = Done true w1 /\ outdent w1 = Done true w2
                   /\ getIndent parentBlock w2 = Done 9 w2)
  /\ (__indent n = 0 ->
     exists w1 w2, outdent w = Done true w1 /\ indent w1 = Done true w2
                   /\ getIndent parentBlock w2 = Done 1 w2).
Proof.
  intros Hsel Hblock Hn Htab indent outdent. subst indent outdent.
  assert (Hstep : forall i,
    let w1 := withEditorState w
                (writeNode parentBlock (withIndent n i) (editorState w)) in
    _selection (editorState w1) = Some selection
    /\ parentBlockOf (anchor selection) w1 = Done parentBlock w1
    /\ _nodeMap (editorState w1) !! parentBlock = Some (withIndent n i)).
  { intros i w1. split; [exact Hsel|]. split.
    - apply (parentBlockOf_written _ _ _ n); [exact Hn | reflexivity | exact Hblock].
    - apply lookup_insert_eq. }
  assert (Hback : forall i j,
    j = __indent n ->
    withEditorState
      (withEditorState w
         (writeNode parentBlock (withIndent n i) (editorState w)))
      (writeNode parentBlock (withIndent (withIndent n i) j)
         (editorState
            (withEditorState w
               (writeNode parentBlock (withIndent n i) (editorState w)))))
    = w).
  { intros i j ->. clear Hstep Hblock Hsel.
    destruct w as [s act rootEl prevented logged trace klasses ls].
    cbn [editorState] in Hn. unfold withEditorState.
    cbn [editorState activeElement rootElement defaultPrevented debugLog
         updates registeredNodes listeners].
    rewrite writeNode_twice, withIndent_back, (writeNode_same _ _ _ Hn).
    reflexivity. }
  split; [|split; [|split]].
  - intros Hrange.
    rewrite (indentContent_run _ _ _ _ _ _ Hsel Hblock Hn Htab).
    replace (__indent n =? 10) with false by (symmetry; apply Z.eqb_neq; lia).
    eexists. split; [reflexivity|].
    destruct (Hstep (__indent n + 1)) as (Hsel1 & Hblock1 & Hn1).
    rewrite (outdentContent_run _ _ _ _ _ _ Hsel1 Hblock1 Hn1 Htab).
    cbn [__indent withIndent].
    replace (__indent n + 1 =? 0) with false
      by (symmetry; apply Z.eqb_neq; lia).
    f_equal. apply Hback. lia.
  - intros Hrange.
    rewrite (outdentContent_run _ _ _ _ _ _ Hsel Hblock Hn Htab).
    replace (__indent n =? 0) with false by (symmetry; apply Z.eqb_neq; lia).
    eexists. split; [reflexivity|].
    destruct (Hstep (__indent n - 1)) as (Hsel1 & Hblock1 & Hn1).
    rewrite (indentContent_run _ _ _ _ _ _ Hsel1 Hblock1 Hn1 Htab).
    cbn [__indent withIndent].
    replace (__indent n - 1 =? 10) with false
      by (symmetry; apply Z.eqb_neq; lia).
    f_equal. apply Hback. lia.
  - intros Hten.
    rewrite (indentContent_run _ _ _ _ _ _ Hsel Hblock Hn Htab).
    rewrite Hten. cbn [Z.eqb Pos.eqb]. exists w.
    rewrite (outdentContent_run _ _ _ _ _ _ Hsel Hblock Hn Htab).
    rewrite Hten. cbn [Z.eqb Pos.eqb].
    eexists. split; [reflexivity|]. split; [reflexivity|].
    apply getIndent_written.
  - intros Hzero.
    rewrite (outdentContent_run _ _ _ _ _ _ Hsel Hblock Hn Htab).
    rewrite Hzero. cbn [Z.eqb Pos.eqb]. exists w.
    rewrite (indentContent_run _ _ _ _ _ _ Hsel Hblock Hn Htab).
    rewrite Hzero. cbn [Z.eqb Pos.eqb].
    eexists. split; [reflexivity|]. split; [reflexivity|].
    apply getIndent_written.
Qed.

Lemma indent_outdent_round_trip_witness :
  exists w1,
    commandListener (richTextEditor 2) "indentContent" JSUndefined
      Examples.inParagraph = Done true w1
    /\ commandListener (richTextEditor 2) "outdentContent" JSUndefined w1
       = Done true Examples.inParagraph.
Proof.
  refine (proj1 (indent_outdent_round_trip (richTextEditor 2)
                   (richTextEditor 2) JSUndefined JSUndefined
                   Examples.inParagraph (Examples.caret 4%N 1 text) 3%N
                   (Examples.node ParagraphNode (Some 0%N) [4%N] 2 "")
                   eq_refl eq_refl eq_refl eq_refl) _).
  simpl. lia.
Defined.

(** X8.  On a block that takes no tab and whose indent level lies in
    [0, 10], [indentContent] and [outdentContent] keep the level in
    [0, 10] and move it by at most one.  They touch nothing else: every
    other node, the block's other fields, the selection, the key counter
    and the host side of the world stay as they were. *)
Theorem indent_level_stays_in_range `{Collaborators} (exec : Dispatch)
    (commandType : string) (payload : JSValue) (w : World)
    (selection : Selection) (parentBlock : NodeKey) (n : OutlineNode) :
  _selection (editorState w) = Some selection ->
  parentBlockOf (anchor selection) w = Done parentBlock w ->
  _nodeMap (editorState w) !! parentBlock = Some n ->
  canInsertTabType (__type n) = false ->
  0 <= __indent n <= 10 ->
  commandType = "indentContent" \/ commandType = "outdentContent" ->
  exists w' level,
    commandListener exec commandType payload w = Done true w'
    /\ 0 <= level <= 10
    /\ Z.abs (level - __indent n) <= 1
    /\ _nodeMap (editorState w') !! parentBlock = Some (withIndent n level)
    /\ (forall node, node <> parentBlock ->
          _nodeMap (editorState w') !! node = _nodeMap (editorState w) !! node)
    /\ _selection (editorState w') = _selection (editorState w)
    /\ _keyCounter (editorState w') = _keyCounter (editorState w)
    /\ withEditorState w (editorState w') = w'.
Proof.
  intros Hsel Hblock Hn Htab Hrange Hcommand.
  assert (Hsame : withIndent n (__indent n) = n) by (destruct n; reflexivity).
  assert (Hkept : forall level,
    0 <= level <= 10 -> Z.abs (level - __indent n) <= 1 ->
    let w' := withEditorState w
                (writeNode parentBlock (withIndent n level) (editorState w)) in
    0 <= level <= 10
    /\ Z.abs (level - __indent n) <= 1
    /\ _nodeMap (editorState w') !! parentBlock = Some (withIndent n level)
    /\ (forall node, node <> parentBlock ->
          _nodeMap (editorState w') !! node = _nodeMap (editorState w) !! node)
    /\ _selection (editorState w') = _selection (editorState w)
    /\ _keyCounter (editorState w') = _keyCounter (editorState w)
    /\ withEditorState w (editorState w') = w').
  { intros level Hlevel Hmove w'. repeat split; try lia.
    - apply lookup_insert_eq.
    - intros node Hne. apply lookup_insert_ne. congruence. }
  assert (Hidle :
    0 <= __indent n <= 10
    /\ Z.abs (__indent n - __indent n) <= 1
    /\ _nodeMap (editorState w) !! parentBlock
       = Some (withIndent n (__indent n))
    /\ (forall node, node <> parentBlock ->
          _nodeMap (editorState w) !! node = _nodeMap (editorState w) !! node)
    /\ _selection (editorState w) = _selection (editorState w)
    /\ _keyCounter (editorState w) = _keyCounter (editorState w)
    /\ withEditorState w (editorState w) = w).
  { repeat split; try lia.
    - rewrite Hsame. exact Hn.
    - apply withEditorState_same. }
  destruct Hcommand as [-> | ->].
  - rewrite (indentContent_run _ _ _ _ _ _ Hsel Hblock Hn Htab).
    destruct (__indent n =? 10) eqn:Hten.
    + exists w, (__indent n). split; [reflexivity | exact Hidle].
    + apply Z.eqb_neq in Hten. eexists. exists (__indent n + 1).
      split; [reflexivity|]. apply Hkept; lia.
  - rewrite (outdentContent_run _ _ _ _ _ _ Hsel Hblock Hn Htab).
    destruct (__indent n =? 0) eqn:Hzero.
    + exists w, (__indent n). split; [reflexivity | exact Hidle].
    + apply Z.eqb_neq in Hzero. eexists. exists (__indent n - 1).
      split; [reflexivity|]. apply Hkept; lia.
Qed.

Lemma indent_level_stays_in_range_witness :
  exists w' level,
    commandListener (richTextEditor 2) "outdentContent" JSUndefined
      Examples.inParagraph = Done true w'
    /\ 0 <= level <= 10
    /\ _nodeMap (editorState w') !! 3%N
       = Some (Examples.node ParagraphNode (Some 0%N) [4%N] level "").
Proof.
  destruct (indent_level_stays_in_range (richTextEditor 2) "outdentContent"
              JSUndefined Examples.inParagraph (Examples.caret 4%N 1 text)
              3%N (Examples.node ParagraphNode (Some 0%N) [4%N] 2 "")
              eq_refl eq_refl eq_refl eq_refl
              ltac:(simpl; lia) (or_intror eq_refl))
    as (w' & level & Hrun & Hrange & _ & Hnode & _).
  exists w', level. split; [exact Hrun|]. split; [exact Hrange | exact Hnode].
Defined.

(** X9.  The bound of the indent level is a test for equality, not an
    order.  Take a block that takes no tab and whose level is an integer
    strictly between [-2^53] and [2^53], the range in which the source's
    number arithmetic is exact.  Then [indentContent] raises every level
    other than 10 by one, also a level above 10 or below 0, and
    [outdentContent] lowers every level other than 0 by one. *)
Theorem indent_bound_is_equality `{Collaborators} (exec : Dispatch)
    (payload : JSValue) (w : World) (selection : Selection)
    (parentBlock : NodeKey) (n : OutlineNode) :
  _selection (editorState w) = Some selection ->
  parentBlockOf (anchor selection) w = Done parentBlock w ->
  _nodeMap (editorState w) !! parentBlock = Some n ->
  canInsertTabType (__type n) = false ->
  - 2 ^ 53 < __indent n < 2 ^ 53 ->
  (__indent n <> 10 ->
     exists w', commandListener exec "indentContent" payload w = Done true w'
                /\ getIndent parentBlock w' = Done (__indent n + 1) w')
  /\ (__indent n <> 0 ->
     exists w', commandListener exec "outdentContent" payload w = Done true w'
                /\ getIndent parentBlock w' = Done (__indent n - 1) w').
Proof.
  intros Hsel Hblock Hn Htab _. split.
  - intros Hten.
    rewrite (indentContent_run _ _ _ _ _ _ Hsel Hblock Hn Htab).
    replace (__indent n =? 10) with false by (symmetry; apply Z.eqb_neq; lia).
    eexists. split; [reflexivity | apply getIndent_written].
  - intros Hzero.
    rewrite (outdentContent_run _ _ _ _ _ _ Hsel Hblock Hn Htab).
    replace (__indent n =? 0) with false by (symmetry; apply Z.eqb_neq; lia).
    eexists. split; [reflexivity | apply getIndent_written].
Qed.

(** A paragraph at level 11 is indented to level 12. *)
Lemma indent_bound_is_equality_witness :
  exists w',
    commandListener (richTextEditor 2) "indentContent" JSUndefined
      Samples.deep = Done true w'
    /\ getIndent 1%N w' = Done 12 w'.
Proof.
  refine (proj1 (indent_bound_is_equality (richTextEditor 2) JSUndefined
                   Samples.deep (Examples.caret 2%N 0 text) 1%N
                   (Examples.node ParagraphNode (Some 0%N) [2%N] 11 "")
                   eq_refl eq_refl eq_refl eq_refl _) _).
  - simpl. lia.
  - simpl. discriminate.
Defined.

(** ** [formatElement] *)

Lemma commandListener_formatElement `{Collaborators} (exec : Dispatch)
    payload w selection :
  _selection (editorState w) = Some selection ->
  commandListener exec "formatElement" payload w =
  bind (getNode (anchor selection))
    (fun node =>
       bind (isElementNode node)
         (fun isElement =>
            bind (if isElement then ret node else getParentOrThrow node)
              (fun element_ =>
                 bind (setFormat element_ payload) (fun _ => ret true)))) w.
Proof.
  intros Hsel. unfold commandListener. unfold bind at 1.
  unfold getSelection, read. rewrite Hsel. reflexivity.
Qed.

(** X10.  [formatElement] finds its element by testing the anchor's node
    ([$isElementNode]) where [indentContent] tests the point kind.  On a
    selection whose point kind agrees with its node the two agree:
    [formatElement] stores the format on the very block [indentContent]
    would work on, changes nothing else, and returns [true] without any
    re-dispatch.  On a text node without a parent it throws the
    invariant violation of [getParentOrThrow]. *)
Theorem formatElement_sets_enclosing_block `{Collaborators} (exec : Dispatch)
    (format : JSValue) (w : World) (selection : Selection) :
  _selection (editorState w) = Some selection ->
  pointAgrees (anchor selection) (editorState w) ->
  (forall parentBlock n,
     parentBlockOf (anchor selection) w = Done parentBlock w ->
     _nodeMap (editorState w) !! parentBlock = Some n ->
     commandListener exec "formatElement" format w
     = Done true
         (withEditorState w
            (writeNode parentBlock (withFormat n format) (editorState w))))
  /\ (is_Some (_nodeMap (editorState w) !! key (anchor selection)) ->
      type (anchor selection) = text ->
      getParent (key (anchor selection)) (editorState w) = None ->
      commandListener exec "formatElement" format w
      = Thrown (InvariantViolation "Expected node to have a parent.")).
Proof.
  intros Hsel Hagree. split.
  - intros parentBlock n Hblock Hn.
    rewrite (commandListener_formatElement _ _ _ _ Hsel).
    rewrite parentBlockOf_closed in Hblock.
    unfold pointAgrees, isBlock in Hagree.
    unfold bind at 1. unfold getNode, bind at 1.
    destruct (_nodeMap (editorState w) !! key (anchor selection)) as [x|] eqn:Hx;
      [|discriminate].
    rewrite (getLatest_lookup _ _ _ Hx). unfold ret at 1.
    unfold bind at 1. unfold isElementNode, bind at 1.
    rewrite (getLatest_lookup _ _ _ Hx). unfold ret at 1.
    destruct (type (anchor selection)) eqn:Htype.
    + destruct (isElementType (__type x)) eqn:Hel.
      { destruct Hagree as [_ Hback]. specialize (Hback eq_refl). discriminate. }
      destruct (getParent (key (anchor selection)) (editorState w)) as [p|] eqn:Hp;
        [|discriminate].
      injection Hblock as ->.
      unfold bind at 1. unfold getParentOrThrow, bind at 1. unfold read.
      rewrite Hp. unfold ret at 1.
      unfold bind, setFormat, bind. rewrite (getLatest_lookup _ _ _ Hn).
      reflexivity.
    + injection Hblock as <-.
      rewrite (proj1 Hagree eq_refl).
      unfold bind at 1. unfold ret at 1.
      unfold bind, setFormat, bind. rewrite (getLatest_lookup _ _ _ Hn).
      reflexivity.
  - intros [x Hx] Htype Hparent.
    rewrite (commandListener_formatElement _ _ _ _ Hsel).
    unfold pointAgrees, isBlock in Hagree. rewrite Hx in Hagree.
    unfold bind at 1. unfold getNode, bind at 1.
    rewrite (getLatest_lookup _ _ _ Hx). unfold ret at 1.
    unfold bind at 1. unfold isElementNode, bind at 1.
    rewrite (getLatest_lookup _ _ _ Hx). unfold ret at 1.
    destruct (isElementType (__type x)) eqn:Hel.
    { destruct Hagree as [_ Hback]. specialize (Hback eq_refl). congruence. }
    unfold bind at 1. unfold getParentOrThrow, bind at 1. unfold read.
    rewrite Hparent. reflexivity.
Qed.

Lemma formatElement_sets_enclosing_block_witness :
  commandListener (richTextEditor 1) "formatElement" (JSString "center")
    Examples.inParagraph
  = Done true
      (withEditorState Examples.inParagraph
         (writeNode 3%N
            (withFormat (Examples.node ParagraphNode (Some 0%N) [4%N] 2 "")
               (JSString "center"))
            (editorState Examples.inParagraph))).
Proof.
  refine (proj1 (formatElement_sets_enclosing_block (richTextEditor 1)
                   (JSString "center") Examples.inParagraph
                   (Examples.caret 4%N 1 text) eq_refl _)
            3%N _ eq_refl eq_refl).
  split; vm_compute; discriminate.
Defined.

(** ** Arrow keys *)

(** X11.  [keyArrowLeft] (backward) and [keyArrowRight] (forward) with an
    active selection and a key event: when the override predicate
    declines, the listener returns unhandled and the world is untouched,
    so the event's default is not prevented; when it accepts, the
    default is prevented once and the caret is moved by [$moveCharacter]
    with the event's shift flag and the direction, and the command is
    handled.  Neither case re-dispatches. *)
Theorem arrowKey_override `{Collaborators} (exec : Dispatch)
    (isBackward : bool) (event : KeyboardEvent) (w : World)
    (selection : Selection) :
  _selection (editorState w) = Some selection ->
  let arrow :=
    commandListener exec (if isBackward then "keyArrowLeft" else "keyArrowRight")
      (JSKeyboardEvent event) w in
  (shouldOverrideDefaultCharacterSelection selection isBackward (editorState w)
   = false ->
   arrow = Done false w)
  /\ (shouldOverrideDefaultCharacterSelection selection isBackward
        (editorState w) = true ->
      arrow
      = match moveCharacter selection (JSBoolean (shiftKey event)) isBackward
                (editorState w) with
        | Normal s =>
            Done true
              (withEditorState
                 (withDefaultPrevented w (eventId event :: defaultPrevented w))
                 s)
        | Abrupt e => Thrown e
        end).
Proof.
  intros Hsel arrow. subst arrow.
  split; intros Hoverride;
    destruct isBackward;
    unfold commandListener, bind, getSelection, read, call;
    rewrite Hsel; simpl; rewrite Hoverride; simpl; try reflexivity;
    match goal with
    | |- context [moveCharacter ?a ?b ?c ?d] =>
        destruct (moveCharacter a b c d); reflexivity
    end.
Qed.

Lemma arrowKey_override_witness :
  commandListener (richTextEditor 1) "keyArrowLeft"
    (JSKeyboardEvent Examples.plainKey) Examples.afterX
  = Done false Examples.afterX
  /\ exists w',
       @commandListener Samples.overriding (richTextEditor 1) "keyArrowLeft"
         (JSKeyboardEvent Examples.plainKey) Examples.afterX
       = Done true w'
       /\ _selection (editorState w') = Some (Examples.caret 2%N 1 text)
       /\ defaultPrevented w' = [2%N].
Proof.
  split.
  - exact (proj1 (arrowKey_override (richTextEditor 1) true Examples.plainKey
                    Examples.afterX (Examples.caret 2%N 2 text) eq_refl)
             eq_refl).
  - eexists. split.
    + exact (proj2 (@arrowKey_override Samples.overriding (richTextEditor 1)
                      true Examples.plainKey Examples.afterX
                      (Examples.caret 2%N 2 text) eq_refl)
               eq_refl).
    + split; reflexivity.
Defined.

(** ** The host side of the world *)

Lemma withEditorState_twice w s s' :
  withEditorState (withEditorState w s) s' = withEditorState w s'.
Proof. reflexivity. Qed.

Lemma hostUntouched_ret {A} (a : A) : hostUntouched (ret a).
Proof.
  intros w a' w' [= _ <-]. symmetry. apply withEditorState_same.
Qed.

Lemma hostUntouched_bind {A B} (c : M A) (k : A -> M B) :
  hostUntouched c -> (forall a, hostUntouched (k a)) -> hostUntouched (bind c k).
Proof.
  intros Hc Hk w b w'. unfold bind.
  destruct (c w) as [a w1| |] eqn:Hrun; try discriminate.
  intros Hrest. rewrite (Hk a w1 b w' Hrest), (Hc w a w1 Hrun).
  reflexivity.
Qed.

Lemma hostUntouched_call f : hostUntouched (call f).
Proof.
  intros w a w'. unfold call.
  destruct (f (editorState w)); [|discriminate].
  intros [= _ <-]. reflexivity.
Qed.

Lemma hostUntouched_read {A} (f : EditorState -> A) : hostUntouched (read f).
Proof.
  intros w a w' [= _ <-]. symmetry. apply withEditorState_same.
Qed.

Lemma hostUntouched_throw {A} e : hostUntouched (@throw A e).
Proof. intros w a w'. discriminate. Qed.

Lemma hostUntouched_getLatest node : hostUntouched (getLatest node).
Proof.
  intros w a w'. unfold getLatest.
  destruct (_nodeMap (editorState w) !! node); [|discriminate].
  intros [= _ <-]. symmetry. apply withEditorState_same.
Qed.

Lemma hostUntouched_getShiftKey event : hostUntouched (getShiftKey event).
Proof.
  intros w a w'. destruct event; simpl; try discriminate;
    intros [= _ <-]; symmetry; apply withEditorState_same.
Qed.

Lemma hostUntouched_preventDefault payload :
  notAnEvent payload -> hostUntouched (preventDefault payload).
Proof.
  intros Hpayload w a w'. destruct payload; simpl; try discriminate.
  exfalso. apply (Hpayload e). reflexivity.
Qed.

Ltac not_an_event := intros ?; discriminate.

Ltac untouched Hexec :=
  cbv beta zeta;
  repeat first
    [ apply hostUntouched_ret
    | apply hostUntouched_call
    | apply hostUntouched_read
    | apply hostUntouched_throw
    | apply hostUntouched_getLatest
    | apply hostUntouched_getShiftKey
    | apply hostUntouched_preventDefault; assumption
    | apply Hexec; not_an_event
    | apply hostUntouched_bind; [|intros ?; cbv beta]
    | progress unfold indentBlock, outdentBlock, parentBlockOf, getNode,
        getParentOrThrow, isElementNode, canInsertTab, getIndent, setIndent,
        setFormat, getSelection
    | match goal with
      | |- hostUntouched (if ?b then _ else _) => destruct b
      | |- hostUntouched (match ?x with _ => _ end) => destruct x
      end ].

(** With a payload that is no key event, no case touches the host
    side, provided the re-dispatched commands do not. *)
Lemma commandListener_hostUntouched `{Collaborators} (exec : Dispatch)
    commandType payload :
  (forall t p, notAnEvent p -> hostUntouched (exec t p)) ->
  notAnEvent payload ->
  hostUntouched (commandListener exec commandType payload).
Proof.
  intros Hexec Hpayload. unfold commandListener. untouched Hexec.
Qed.

Lemma richTextEditor_hostUntouched `{Collaborators} fuel :
  forall commandType payload,
    notAnEvent payload ->
    hostUntouched (richTextEditor fuel commandType payload).
Proof.
  induction fuel as [|fuel IH]; intros commandType payload Hpayload w a w'.
  - discriminate.
  - rewrite richTextEditor_step.
    apply commandListener_hostUntouched; assumption.
Qed.

Lemma preventsOnce_untouched {A} event (c : M A) :
  hostUntouched c -> preventsOnce event c.
Proof. intros Hc w a w' Hrun. left. apply (Hc w a w' Hrun). Qed.

Lemma preventsOnce_bind {A B} event (c : M A) (k : A -> M B) :
  hostUntouched c -> (forall a, preventsOnce event (k a)) ->
  preventsOnce event (bind c k).
Proof.
  intros Hc Hk w b w'. unfold bind.
  destruct (c w) as [a w1| |] eqn:Hrun; try discriminate.
  intros Hrest. rewrite (Hc w a w1 Hrun) in Hrest.
  destruct (Hk a _ b w' Hrest) as [-> | ->]; [left | right]; reflexivity.
Qed.

Lemma preventsOnce_prevent {B} event (k : unit -> M B) :
  (forall a, hostUntouched (k a)) ->
  preventsOnce event (bind (preventDefault (JSKeyboardEvent event)) k).
Proof.
  intros Hk w b w'. unfold bind. simpl. intros Hrest.
  right. apply (Hk tt _ b w' Hrest).
Qed.

Ltac at_most_once Hexec :=
  cbv beta zeta;
  repeat first
    [ apply preventsOnce_prevent; intros ?; cbv beta; solve [untouched Hexec]
    | apply preventsOnce_untouched; solve [untouched Hexec]
    | apply preventsOnce_bind; [solve [untouched Hexec] | intros ?; cbv beta]
    | match goal with
      | |- preventsOnce _ (if ?b then _ else _) => destruct b
      | |- preventsOnce _ (match ?x with _ => _ end) => destruct x
      end ].

Lemma commandListener_preventsOnce `{Collaborators} (exec : Dispatch)
    commandType event :
  (forall t p, notAnEvent p -> hostUntouched (exec t p)) ->
  preventsOnce event
    (commandListener exec commandType (JSKeyboardEvent event)).
Proof.
  intros Hexec. unfold commandListener. at_most_once Hexec.
Qed.

(** X12.  With this listener alone installed, a dispatch that returns
    has left the host side of the world alone (what is focused, the
    debug log, the update trace, the registrations), with one exception:
    a command whose payload is a key event may have prevented the default
    of that very event, once.  In particular no command commits an
    update or fires a callback, and a command without a key event never
    prevents a default. *)
Theorem dispatch_host_effect `{Collaborators} (fuel : nat)
    (commandType : string) (payload : JSValue) (w : World) (handled : bool)
    (w' : World) :
  richTextEditor fuel commandType payload w = Done handled w' ->
  w' = withEditorState w (editorState w')
  \/ exists event,
       payload = JSKeyboardEvent event
       /\ w' = withEditorState
                 (withDefaultPrevented w
                    (eventId event :: defaultPrevented w))
                 (editorState w').
Proof.
  destruct fuel as [|fuel]; [discriminate|].
  rewrite richTextEditor_step. intros Hrun.
  destruct payload as [| b | s | event].
  1-3: left;
       eapply (commandListener_hostUntouched (richTextEditor fuel) commandType
                 _ (richTextEditor_hostUntouched fuel));
       [|exact Hrun]; not_an_event.
  destruct (commandListener_preventsOnce (richTextEditor fuel) commandType
              event (richTextEditor_hostUntouched fuel) w handled w' Hrun)
    as [Hsame | Hprevented].
  - left. exact Hsame.
  - right. exists event. split; [reflexivity | exact Hprevented].
Qed.

Lemma dispatch_host_effect_witness :
  match richTextEditor 3 "keyTab" (JSKeyboardEvent Examples.plainKey)
          Examples.inParagraph with
  | Done _ w' =>
      w' = withEditorState Examples.inParagraph (editorState w')
      \/ exists event,
           JSKeyboardEvent Examples.plainKey = JSKeyboardEvent event
           /\ w' = withEditorState
                     (withDefaultPrevented Examples.inParagraph
                        (eventId event
                         :: defaultPrevented Examples.inParagraph))
                     (editorState w')
  | _ => False
  end.
Proof.
  destruct (richTextEditor 3 "keyTab" (JSKeyboardEvent Examples.plainKey)
              Examples.inParagraph) as [handled w'| |] eqn:Hrun.
  - exact (dispatch_host_effect 3 "keyTab" (JSKeyboardEvent Examples.plainKey)
             Examples.inParagraph handled w' Hrun).
  - vm_compute in Hrun. discriminate.
  - vm_compute in Hrun. discriminate.
Defined.

(** ** Lifecycle, continued *)

Lemma wellFormed_fresh s :
  wellFormed s ->
  (exists root, _nodeMap s !! rootKey = Some root)
  /\ _nodeMap s !! _keyCounter s = None.
Proof.
  intros [[root Hroot] Hbelow]. split; [eauto|].
  destruct (_nodeMap s !! _keyCounter s) as [n|] eqn:Hn; [|reflexivity].
  specialize (Hbelow (_keyCounter s) (mk_is_Some _ _ Hn)). lia.
Qed.

(** The document [initParagraph] leaves is well formed when the node map
    it started from had the root and only keys below the counter. *)
Lemma wellFormed_paragraph_added (m : gmap N OutlineNode) root paragraph
    selection counter :
  (forall node, is_Some (m !! node) -> (node < counter)%N) ->
  is_Some (m !! rootKey) ->
  wellFormed
    {| _nodeMap := <[rootKey := root]> (<[counter := paragraph]> m);
       _selection := selection;
       _keyCounter := N.succ counter |}.
Proof.
  intros Hbelow Hroot. split; simpl.
  - rewrite lookup_insert_eq. eauto.
  - intros node Hnode.
    destruct (decide (rootKey = node)) as [<-|Hne].
    + specialize (Hbelow rootKey Hroot). lia.
    + rewrite lookup_insert_ne in Hnode by exact Hne.
      destruct (decide (counter = node)) as [<-|Hne']; [lia|].
      rewrite lookup_insert_ne in Hnode by exact Hne'.
      specialize (Hbelow node Hnode). lia.
Qed.

Lemma visible_iff w :
  bool_decide (_selection (editorState w) <> None)
  || (bool_decide (activeElement w <> None)
      && bool_decide (activeElement w = rootElement w)) = true
  <-> selectionVisible w.
Proof.
  unfold selectionVisible. rewrite orb_true_iff, andb_true_iff.
  rewrite !bool_decide_eq_true. split.
  - intros [Hsel|[Hactive Hfocus]]; [left; exact Hsel|right].
    destruct (activeElement w) as [dom|] eqn:Hdom; [|congruence].
    exists dom. split; [reflexivity | symmetry; exact Hfocus].
  - intros [Hsel|(dom & Hactive & Hroot)]; [left; exact Hsel|right].
    rewrite Hactive, Hroot. split; [discriminate | reflexivity].
Qed.

(** [initEditor] on a root that has a first child: the log entry and the
    commit of the unchanged document. *)
Lemma initEditor_nonempty w root firstChild :
  _nodeMap (editorState w) !! rootKey = Some root ->
  head (__children root) = Some firstChild ->
  initEditor w
  = Done tt
      (withUpdates (withDebugLog w (debugLog w ++ ["initEditor"]))
         (updates w ++ [Committed (editorState w)])).
Proof.
  intros Hroot Hfirst. unfold initEditor, update.
  unfold log, getRoot, getFirstChild. unfold bind at 1 2 3 4.
  rewrite (getLatest_lookup rootKey (withDebugLog w _) root Hroot).
  unfold ret at 1. unfold bind at 1.
  rewrite (getLatest_lookup rootKey (withDebugLog w _) root Hroot).
  unfold ret at 1. rewrite Hfirst. reflexivity.
Qed.

(** [clearEditor] in closed form, on a document with a root and a fresh
    key counter. *)
Lemma clearEditor_run w root callbackFn :
  _nodeMap (editorState w) !! rootKey = Some root ->
  _nodeMap (editorState w) !! _keyCounter (editorState w) = None ->
  let paragraph := _keyCounter (editorState w) in
  exists root' m,
    (forall node, _nodeMap (editorState w) !! node = None -> m !! node = None)
    /\ is_Some (m !! rootKey)
    /\ let cleared :=
         {| _nodeMap :=
              <[rootKey := withChildren (withChildren root' []) ([] ++ [paragraph])]>
                (<[paragraph := emptyParagraph (Some rootKey)]> m);
            _selection :=
              if bool_decide (_selection (editorState w) <> None)
                 || (bool_decide (activeElement w <> None)
                     && bool_decide (activeElement w = rootElement w))
              then Some (insideAtStart paragraph)
              else _selection (editorState w);
            _keyCounter := N.succ paragraph |} in
       clearEditor callbackFn w
       = Done tt
           (withUpdates
              (withEditorState
                 (withDebugLog w (debugLog w ++ ["clearEditor"])) cleared)
              (updates w ++
               Committed cleared ::
               match callbackFn with
               | Some f => [CallbackFired f]
               | None => []
               end)).
Proof.
  intros Hroot Hfresh paragraph.
  assert (Hne : rootKey <> paragraph)
    by (intros E; subst paragraph; rewrite E in Hroot; congruence).
  destruct (clear_run (withDebugLog w (debugLog w ++ ["clearEditor"]))
              rootKey root Hroot) as (root' & Hroot' & Hclear).
  destruct (detach_all (__children root) (editorState w))
    as (_ & _ & Hnone & _).
  exists root'.
  exists (<[rootKey := withChildren root' []]>
            (_nodeMap (foldr detach (editorState w) (__children root)))).
  split; [|split].
  - intros node Hnode. rewrite lookup_insert_ne; [apply Hnone, Hnode|].
    intros <-. congruence.
  - rewrite lookup_insert_eq. eauto.
  - intros cleared. unfold clearEditor, update.
    unfold log, getRoot. unfold bind at 1 2 3 4.
    rewrite (getLatest_lookup rootKey (withDebugLog w _) root Hroot).
    unfold ret at 1. rewrite Hclear.
    erewrite initParagraph_run; cycle 1.
    { unfold withEditorState. cbn [editorState _nodeMap].
      apply lookup_insert_eq. }
    { unfold withEditorState, withDebugLog.
      cbn [editorState _nodeMap _keyCounter]. fold paragraph.
      rewrite lookup_insert_ne by exact Hne. apply Hnone, Hfresh. }
    reflexivity.
Qed.

(** X13.  [initEditor] and [clearEditor] keep a document well formed (a
    root, and every key below the key counter), and on a well-formed
    document they never throw.  So they can follow one another in any
    order and number. *)
Theorem lifecycle_keeps_wellFormed (w : World) (callbackFn : option N) :
  wellFormed (editorState w) ->
  (exists w', initEditor w = Done tt w' /\ wellFormed (editorState w'))
  /\ (exists w', clearEditor callbackFn w = Done tt w'
                 /\ wellFormed (editorState w')).
Proof.
  intros Hwf.
  destruct (wellFormed_fresh _ Hwf) as [[root Hroot] Hfresh].
  destruct Hwf as [Hhas Hbelow].
  split.
  - destruct (__children root) as [|firstChild rest] eqn:Hchildren.
    + destruct (initEditor_empty w root Hroot Hchildren Hfresh)
        as (w1 & Hparagraph & Hinit).
      rewrite (initParagraph_run (withDebugLog w _) rootKey root Hroot Hfresh)
        in Hparagraph.
      injection Hparagraph as <-.
      eexists. split; [exact Hinit|].
      apply wellFormed_paragraph_added; assumption.
    + eexists. split.
      * apply (initEditor_nonempty w root firstChild Hroot).
        rewrite Hchildren. reflexivity.
      * split; assumption.
  - destruct (clearEditor_run w root callbackFn Hroot Hfresh)
      as (root' & m & Hnone & Hm & Hrun).
    eexists. split; [exact Hrun|].
    apply wellFormed_paragraph_added; [|exact Hm].
    intros node Hnode. apply Hbelow.
    destruct (_nodeMap (editorState w) !! node) eqn:Horig; [eauto|].
    rewrite (Hnone node Horig) in Hnode. destruct Hnode. discriminate.
Qed.

Lemma lifecycle_keeps_wellFormed_witness :
  (exists w', initEditor Examples.blank = Done tt w'
              /\ wellFormed (editorState w'))
  /\ (exists w', clearEditor None Examples.blank = Done tt w'
                 /\ wellFormed (editorState w')).
Proof.
  apply (lifecycle_keeps_wellFormed Examples.blank None).
  split.
  - eexists. reflexivity.
  - intros node [n Hn]. simpl in *.
    destruct (decide (0%N = node)) as [<-|Hne]; [lia|].
    rewrite lookup_insert_ne in Hn by exact Hne.
    rewrite lookup_empty in Hn. discriminate.
Defined.

(** X14.  [initEditor] is idempotent on the document: on a document with
    a root and a fresh key counter, a second [initEditor] right after
    the first finds a first child and leaves the document state exactly
    as the first one left it. *)
Theorem initEditor_idempotent (w : World) (root : OutlineNode) :
  _nodeMap (editorState w) !! rootKey = Some root ->
  _nodeMap (editorState w) !! _keyCounter (editorState w) = None ->
  exists w1 w2,
    initEditor w = Done tt w1
    /\ initEditor w1 = Done tt w2
    /\ editorState w2 = editorState w1.
Proof.
  intros Hroot Hfresh.
  destruct (__children root) as [|firstChild rest] eqn:Hchildren.
  - destruct (initEditor_empty w root Hroot Hchildren Hfresh)
      as (w1 & Hparagraph & Hinit).
    rewrite (initParagraph_run (withDebugLog w _) rootKey root Hroot Hfresh)
      in Hparagraph.
    injection Hparagraph as <-.
    eexists. eexists. split; [exact Hinit|]. split.
    + eapply (initEditor_nonempty _ _ (_keyCounter (editorState w))).
      * unfold withUpdates, withEditorState. cbn [editorState _nodeMap].
        apply lookup_insert_eq.
      * simpl. rewrite Hchildren. reflexivity.
    + reflexivity.
  - eexists. eexists. split; [|split].
    + apply (initEditor_nonempty w root firstChild Hroot).
      rewrite Hchildren. reflexivity.
    + eapply (initEditor_nonempty _ root firstChild);
        [exact Hroot | rewrite Hchildren; reflexivity].
    + reflexivity.
Qed.

Lemma initEditor_idempotent_witness :
  exists w1 w2,
    initEditor Examples.blankFocused = Done tt w1
    /\ initEditor w1 = Done tt w2
    /\ editorState w2 = editorState w1.
Proof.
  exact (initEditor_idempotent Examples.blankFocused
           (Examples.node RootNode None [] 0 "") eq_refl eq_refl).
Defined.

(** X15.  After [clearEditor], on a document with a root and a fresh key
    counter, the selection never points into what was removed: it is
    inside the new paragraph at offset 0 when a selection existed or the
    editing surface held focus, and [null] otherwise (a surface without a
    root element is not taken to hold focus, even when nothing is
    focused).  The update trace grows by the one commit, followed by the
    callback only when one was given, and the log by one entry. *)
Theorem clearEditor_selection_and_trace (w : World) (root : OutlineNode)
    (callbackFn : option N) :
  _nodeMap (editorState w) !! rootKey = Some root ->
  _nodeMap (editorState w) !! _keyCounter (editorState w) = None ->
  let paragraph := _keyCounter (editorState w) in
  exists w',
    clearEditor callbackFn w = Done tt w'
    /\ (selectionVisible w ->
        _selection (editorState w') = Some (insideAtStart paragraph))
    /\ (~ selectionVisible w -> _selection (editorState w') = None)
    /\ (activeElement w = None -> rootElement w = None ->
        _selection (editorState w) = None ->
        _selection (editorState w') = None)
    /\ updates w'
       = (updates w ++
          Committed (editorState w') ::
          match callbackFn with
          | Some f => [CallbackFired f]
          | None => []
          end)%list
    /\ debugLog w' = (debugLog w ++ ["clearEditor"])%list.
Proof.
  intros Hroot Hfresh paragraph.
  destruct (clearEditor_run w root callbackFn Hroot Hfresh)
    as (root' & m & _ & _ & Hrun).
  eexists. split; [exact Hrun|].
  unfold withUpdates, withEditorState, withDebugLog.
  cbn [editorState _selection updates debugLog]. fold paragraph.
  pose proof (visible_iff w) as Hvisible.
  destruct (bool_decide (_selection (editorState w) <> None)
            || (bool_decide (activeElement w <> None)
                && bool_decide (activeElement w = rootElement w))) eqn:Hb.
  - repeat split; try reflexivity.
    + intros Hnot. exfalso. apply Hnot, Hvisible. reflexivity.
    + intros Hactive _ Hsel. exfalso.
      destruct (proj1 Hvisible eq_refl) as [Hs|(dom & Hdom & _)]; congruence.
  - assert (Hnull : _selection (editorState w) = None).
    { destruct (_selection (editorState w)) eqn:Hsel; [|reflexivity].
      exfalso.
      assert (selectionVisible w) as Hv by (left; congruence).
      apply Hvisible in Hv. discriminate. }
    repeat split; try reflexivity; try (intros; exact Hnull).
    intros Hv. apply Hvisible in Hv. discriminate.
Qed.

Lemma clearEditor_selection_and_trace_witness :
  exists w',
    clearEditor None Examples.inParagraph = Done tt w'
    /\ _selection (editorState w') = Some (insideAtStart 10%N)
    /\ updates w' = [Committed (editorState w')].
Proof.
  destruct (clearEditor_selection_and_trace Examples.inParagraph
              (Examples.node RootNode None [1%N; 3%N] 0 "") None
              eq_refl eq_refl)
    as (w' & Hrun & Hvisible & _ & _ & Htrace & _).
  exists w'. split; [exact Hrun|]. split; [|exact Htrace].
  apply Hvisible. left. discriminate.
Defined.

(** X16.  Mounting registers the same things whatever the initialize
    flag: the six node classes, then the text-mutation listener and the
    command listener, the latter at priority 0.  Without the flag
    nothing else happens: the document, the debug log and the update
    trace are untouched and nothing can throw.  With the flag, on a
    document with a root and a fresh key counter, exactly one update is
    committed. *)
Theorem mount_registrations (w : World) (root : OutlineNode) :
  let registered (w' : World) :=
    registeredNodes w'
    = (registeredNodes w ++
       [HeadingNode; ListNode; QuoteNode; CodeNode; ParagraphNode;
        ListItemNode])%list
    /\ listeners w'
       = (listeners w ++
          [mkListener "textmutation" OnTextMutation None;
           mkListener "command" CommandListener (Some 0)])%list in
  (exists w', useRichTextSetup false w = Done tt w'
              /\ registered w'
              /\ editorState w' = editorState w
              /\ debugLog w' = debugLog w
              /\ updates w' = updates w)
  /\ (_nodeMap (editorState w) !! rootKey = Some root ->
      _nodeMap (editorState w) !! _keyCounter (editorState w) = None ->
      exists w', useRichTextSetup true w = Done tt w'
                 /\ registered w'
                 /\ updates w'
                    = (updates w ++ [Committed (editorState w')])%list).
Proof.
  intros registered. subst registered. cbv beta.
  set (mounted :=
         withRegistrations
           (withRegistrations
              (withRegistrations w
                 (registeredNodes w ++
                  [HeadingNode; ListNode; QuoteNode; CodeNode; ParagraphNode;
                   ListItemNode])
                 (listeners w))
              (registeredNodes w ++
               [HeadingNode; ListNode; QuoteNode; CodeNode; ParagraphNode;
                ListItemNode])
              (listeners w ++ [mkListener "textmutation" OnTextMutation None]))
           (registeredNodes w ++
            [HeadingNode; ListNode; QuoteNode; CodeNode; ParagraphNode;
             ListItemNode])
           ((listeners w ++ [mkListener "textmutation" OnTextMutation None]) ++
            [mkListener "command" CommandListener (Some EditorPriority)])).
  assert (Hlisteners :
    listeners mounted
    = (listeners w ++
       [mkListener "textmutation" OnTextMutation None;
        mkListener "command" CommandListener (Some 0)])%list).
  { subst mounted. simpl. rewrite <- app_assoc. reflexivity. }
  split.
  - exists mounted. split; [reflexivity|].
    split; [split; [reflexivity | exact Hlisteners]|].
    repeat split.
  - intros Hroot Hfresh.
    assert (Hmount : useRichTextSetup true w = initEditor mounted)
      by reflexivity.
    rewrite Hmount.
    destruct (__children root) as [|firstChild rest] eqn:Hchildren.
    + destruct (initEditor_empty mounted root Hroot Hchildren Hfresh)
        as (w1 & Hparagraph & Hinit).
      rewrite (initParagraph_run (withDebugLog mounted _) rootKey root
                 Hroot Hfresh) in Hparagraph.
      injection Hparagraph as <-.
      eexists. split; [exact Hinit|].
      split; [split; [reflexivity | exact Hlisteners] | reflexivity].
    + eexists. split.
      * apply (initEditor_nonempty mounted root firstChild Hroot).
        rewrite Hchildren. reflexivity.
      * split; [split; [reflexivity | exact Hlisteners] | reflexivity].
Qed.

Lemma mount_registrations_witness :
  exists w',
    useRichTextSetup true Examples.blank = Done tt w'
    /\ listeners w'
       = [mkListener "textmutation" OnTextMutation None;
          mkListener "command" CommandListener (Some 0)]
    /\ updates w' = [Committed (editorState w')].
Proof.
  destruct (proj2 (mount_registrations Examples.blank
                     (Examples.node RootNode None [] 0 ""))
              eq_refl eq_refl)
    as (w' & Hrun & [_ Hlisteners] & Htrace).
  exists w'. split; [exact Hrun|]. split; [exact Hlisteners | exact Htrace].
Defined.

(** ** Event bindings, continued *)

Lemma handlersOf_absent name (bindings : list (string * EventHandler)) :
  name ∉ map fst bindings -> handlersOf name bindings = [].
Proof.
  unfold handlersOf.
  induction bindings as [|[event handler] rest IH]; intros Habsent.
  - reflexivity.
  - simpl in Habsent. apply not_elem_of_cons in Habsent as [Hne Hrest].
    rewrite filter_cons. simpl. case_decide as Hname.
    + apply String.eqb_eq in Hname. congruence.
    + apply IH, Hrest.
Qed.

Lemma handlersOf_at_most_one name (bindings : list (string * EventHandler)) :
  NoDup (map fst bindings) ->
  (List.length (handlersOf name bindings) <= 1)%nat.
Proof.
  induction bindings as [|[event handler] rest IH]; intros Hnodup.
  - simpl. lia.
  - simpl in Hnodup. apply NoDup_cons in Hnodup as [Hfresh Hrest].
    unfold handlersOf. rewrite filter_cons. simpl. case_decide as Hname.
    + apply String.eqb_eq in Hname. subst event.
      pose proof (handlersOf_absent name rest Hfresh) as Habsent.
      unfold handlersOf in Habsent. apply map_eq_nil in Habsent.
      rewrite length_map, Habsent. simpl. lia.
    + apply IH, Hrest.
Qed.

(** X17.  Whatever the capability flag, the table binds eleven events,
    no event name twice and no handler twice; so an event of the table
    runs at most one of its handlers, and the ten common bindings are
    the same on both kinds of platform. *)
Theorem events_bound_once (CAN_USE_BEFORE_INPUT : bool) (name : string) :
  List.length (events CAN_USE_BEFORE_INPUT) = 11%nat
  /\ NoDup (map fst (events CAN_USE_BEFORE_INPUT))
  /\ NoDup (map snd (events CAN_USE_BEFORE_INPUT))
  /\ (List.length (handlersOf name (events CAN_USE_BEFORE_INPUT)) <= 1)%nat
  /\ take 10 (events CAN_USE_BEFORE_INPUT) = take 10 (events true).
Proof.
  assert (Hnames : NoDup (map fst (events CAN_USE_BEFORE_INPUT))).
  { destruct CAN_USE_BEFORE_INPUT; simpl;
      repeat (apply NoDup_cons; split;
              [rewrite ?elem_of_cons, elem_of_nil; intuition discriminate|]);
      apply NoDup_nil_2. }
  split; [destruct CAN_USE_BEFORE_INPUT; reflexivity|].
  split; [exact Hnames|]. split; [|split].
  - destruct CAN_USE_BEFORE_INPUT; simpl;
      repeat (apply NoDup_cons; split;
              [rewrite ?elem_of_cons, elem_of_nil; intuition discriminate|]);
      apply NoDup_nil_2.
  - apply handlersOf_at_most_one, Hnames.
  - destruct CAN_USE_BEFORE_INPUT; reflexivity.
Qed.
